(** * SignBridge: the hand-landmark bridge, the recognition handlers and the
      session endpoints, embedded from the sources

    Sources embedded here:
    - the Unity component [SignBridgeConnector] (C#): recognition gate,
      payload splitting, landmark parsing, session id bookkeeping;
    - the Electron main process (desktop/electron/main.js): the
      [recognize-sign], [save-conversation] and [load-conversation] handlers;
    - the React Native screen [SignBridgeMobile]: [capturePhoto];
    - the Flask endpoints of the integration guide: [start_hand_tracking],
      [process_hand_landmarks], [recognize_sign_from_landmarks];
    - [SignBridgeTestManager]: the payload of [TestHandData] and the order
      in which [RunTest] stores it and switches recognition.

    Conventions.  Text is [string] (8-bit characters; the payloads of the
    repository are ASCII).  A C# [float] is an abstract type [num] read by an
    abstract [float_Parse]; JavaScript and Python numbers that are only
    compared are rationals.  Clock readings and random draws are inputs of the
    function that reads them.  Console output at information level is not
    modelled; error logs and outgoing requests are. *)

From Stdlib Require Import ZArith QArith Qround String Ascii List Lia.
From Stdlib Require Import DecimalString DecimalZ DecimalPos.
From stdpp Require Import base option list strings gmap.

Close Scope Q_scope.
Open Scope string_scope.

(* ===================================================================== *)
(** ** The .NET string operations used by the connector *)
(* ===================================================================== *)

Module CSharp.

Inductive Exception :=
| ArgumentOutOfRangeException
| IndexOutOfRangeException
| NullReferenceException
| FormatException.

(** A computation that returns or throws. *)
Definition throws (A : Type) : Type := Exception + A.

#[export] Instance throws_ret : MRet throws := λ A a, inr a.
#[export] Instance throws_bind : MBind throws :=
  λ A B f m, match m with inl e => inl e | inr a => f a end.

(** [s.Remove(startIndex, count)]: the characters before [startIndex]
    followed by those from [startIndex + count] on; out of range
    arguments throw. *)
Definition Remove (s : string) (startIndex count : Z) : throws string :=
  let len := Z.of_nat (String.length s) in
  if bool_decide (startIndex < 0 ∨ count < 0 ∨ len < startIndex + count)%Z
  then inl ArgumentOutOfRangeException
  else inr (substring 0 (Z.to_nat startIndex) s +:+
            substring (Z.to_nat (startIndex + count))
                      (Z.to_nat (len - startIndex - count)) s).

(** [s.Split(separator)]: the pieces between separators, empty pieces
    kept; a string without separator is its own single piece. *)
Fixpoint Split (separator : ascii) (s : string) : list string :=
  match s with
  | EmptyString => [EmptyString]
  | String c rest =>
      if Ascii.eqb c separator then EmptyString :: Split separator rest
      else match Split separator rest with
           | piece :: pieces => String c piece :: pieces
           | [] => [String c EmptyString]
           end
  end.

Definition IsNullOrEmpty (s : option string) : bool :=
  match s with
  | None => true
  | Some EmptyString => true
  | Some _ => false
  end.

End CSharp.

(* ===================================================================== *)
(** ** SignBridgeConnector (Unity) *)
(* ===================================================================== *)

Module Unity.
Import CSharp.

Section Connector.
(** The C# [float] and [float.Parse]; [None] is the [FormatException]
    of a token that is not a number. *)
Context {num : Type}.
Variable float_Parse : string → option num.

Record SignBridgeSign := {
  name : string;
  category : string;
  confidence : num;
  description : string
}.

Record SignBridgeResponse := {
  success : bool;
  message : string;
  signs : option (list SignBridgeSign);
  recognized_sign : option SignBridgeSign
}.

Record AvatarRequest := {
  text : string;
  gesture_type : string;
  avatar_confidence : num
}.

Record Landmark := { x : num; y : num; z : num }.

(** The anonymous [handData] object of [SendHandDataToSignBridge]. *)
Record HandData := {
  landmarks : list Landmark;
  session_id : string;
  timestamp : Z
}.

(** The object handed to [JsonUtility.ToJson] for a request body. *)
Inductive Body :=
| HandDataJson (h : HandData)
| AvatarJson (a : AvatarRequest).

(** What one call leaves behind, in order. *)
Inductive Effect :=
| LogError (e : Exception)
    (* Debug.LogError("Error processing hand data: ...") *)
| CoroutineFault (e : Exception)
    (* an exception leaving a coroutine body: no handler of the
       component sees it, the coroutine ends there *)
| WebRequest (endpoint : string) (body : Body).
    (* SendToSignBridge(endpoint, json): the POST that is sent *)

(** The receiver component as the connector uses it: one public field,
    assigned by whoever receives a datagram (and by the test manager) and
    read, never cleared, by the connector.  [None] is [null]. *)
Record UDPReceive := { data : option string }.

(** The component together with the receiver its reference points to. *)
Record Connector := {
  isRecognizing : bool;
  currentSessionId : string;
  availableSigns : list SignBridgeSign;
  statusText : option string;          (* None: no UI element bound *)
  recognizedSignText : option string;
  handTracking : bool;                 (* the reference is not null *)
  udpReceive : option UDPReceive       (* None: the reference is null *)
}.

Definition set_isRecognizing (b : bool) (c : Connector) : Connector :=
  {| isRecognizing := b;
     currentSessionId := currentSessionId c;
     availableSigns := availableSigns c;
     statusText := statusText c;
     recognizedSignText := recognizedSignText c;
     handTracking := handTracking c;
     udpReceive := udpReceive c |}.

Definition set_currentSessionId (s : string) (c : Connector) : Connector :=
  {| isRecognizing := isRecognizing c;
     currentSessionId := s;
     availableSigns := availableSigns c;
     statusText := statusText c;
     recognizedSignText := recognizedSignText c;
     handTracking := handTracking c;
     udpReceive := udpReceive c |}.

Definition set_statusText (s : option string) (c : Connector) : Connector :=
  {| isRecognizing := isRecognizing c;
     currentSessionId := currentSessionId c;
     availableSigns := availableSigns c;
     statusText := s;
     recognizedSignText := recognizedSignText c;
     handTracking := handTracking c;
     udpReceive := udpReceive c |}.

Definition set_recognizedSignText (s : option string) (c : Connector)
  : Connector :=
  {| isRecognizing := isRecognizing c;
     currentSessionId := currentSessionId c;
     availableSigns := availableSigns c;
     statusText := statusText c;
     recognizedSignText := s;
     handTracking := handTracking c;
     udpReceive := udpReceive c |}.

(** [udpReceive.data = d], done by the receiver's owner when the
    reference is set. *)
Definition receive (d : option string) (c : Connector) : Connector :=
  {| isRecognizing := isRecognizing c;
     currentSessionId := currentSessionId c;
     availableSigns := availableSigns c;
     statusText := statusText c;
     recognizedSignText := recognizedSignText c;
     handTracking := handTracking c;
     udpReceive := match udpReceive c with
                   | Some _ => Some {| data := d |}
                   | None => None
                   end |}.

(** [udpReceive.data] currently is [payload]. *)
Definition holds (c : Connector) (payload : string) : Prop :=
  udpReceive c = Some {| data := Some payload |}.

Definition UpdateStatus (c : Connector) : Connector :=
  match statusText c with
  | Some _ =>
      set_statusText
        (Some (if isRecognizing c then "Recognizing..." else "Ready")) c
  | None => c
  end.

Definition ToggleRecognition (c : Connector) : Connector :=
  UpdateStatus (set_isRecognizing (negb (isRecognizing c)) c).

Definition SetRecognitionState (state : bool) (c : Connector) : Connector :=
  UpdateStatus (set_isRecognizing state c).

Definition GetCurrentSessionId (c : Connector) : string :=
  currentSessionId c.

(** [float.Parse(handPoints[i])]. *)
Definition Parse_at (handPoints : list string) (i : nat) : throws num :=
  match handPoints !! i with
  | None => inl IndexOutOfRangeException
  | Some token =>
      match float_Parse token with
      | Some v => inr v
      | None => inl FormatException
      end
  end.

(** The loop [for (int i = 0; i < 21; i++)] from index [i] with
    [remaining] rounds to go. *)
Fixpoint landmark_loop (handPoints : list string) (i remaining : nat)
    (acc : list Landmark) : throws (list Landmark) :=
  match remaining with
  | O => inr acc
  | S k =>
      if bool_decide (i * 3 + 2 < length handPoints)%nat then
        vx ← Parse_at handPoints (i * 3);
        vy ← Parse_at handPoints (i * 3 + 1);
        vz ← Parse_at handPoints (i * 3 + 2);
        landmark_loop handPoints (S i) k
          (acc ++ [ {| x := vx; y := vy; z := vz |} ])%list
      else landmark_loop handPoints (S i) k acc
  end.

(** The body of the coroutine up to the request it sends. *)
Definition SendHandDataToSignBridge (c : Connector) (now : Z)
    (handPoints : list string) : throws (list Effect) :=
  lms ← landmark_loop handPoints 0 21 [];
  let handData :=
    {| landmarks := lms;
       session_id := currentSessionId c;
       timestamp := now |} in
  mret [WebRequest "/api/recognize/advanced" (HandDataJson handData)].

(** [StartCoroutine(body)]: the body runs at once; what it throws does
    not come back to the caller. *)
Definition StartCoroutine (body : throws (list Effect)) : list Effect :=
  match body with
  | inl e => [CoroutineFault e]
  | inr effects => effects
  end.

(** [udpReceive.data] as the [try] block reads it and first uses it. *)
Definition read_data (c : Connector) : throws string :=
  match udpReceive c with
  | Some {| data := Some d |} => inr d
  | _ => inl NullReferenceException
  end.

(** The statements inside the [try] of [ProcessHandTrackingData]. *)
Definition process_try (c : Connector) (now : Z) : throws (list Effect) :=
  data0 ← read_data c;
  data1 ← Remove data0 0 1;
  data2 ← Remove data1 (Z.of_nat (String.length data1) - 1) 1;
  let points := Split "," data2 in
  if bool_decide (63 ≤ length points)%nat then
    mret (StartCoroutine (SendHandDataToSignBridge c now points))
  else mret [].

Definition ProcessHandTrackingData (c : Connector) (now : Z)
  : list Effect :=
  if negb (isRecognizing c) then []
  else match process_try c now with
       | inr effects => effects
       | inl e => [LogError e]
       end.

(** One frame of the engine; [now] is the clock in milliseconds. *)
Definition Update (c : Connector) (now : Z) : list Effect :=
  match handTracking c, udpReceive c with
  | true, Some receiver =>
      if negb (IsNullOrEmpty (data receiver))
      then ProcessHandTrackingData c now
      else []
  | _, _ => []
  end.

(** The continuation of [StartLearningSession] once the request has
    ended: [None] is a failed request. *)
Definition StartLearningSession (reply : option SignBridgeResponse)
    (c : Connector) : Connector :=
  match reply with
  | Some response =>
      if success response
      then set_currentSessionId (message response) c
      else c
  | None => c
  end.

Definition CreateAvatarFromSign (sign : SignBridgeSign) : list Effect :=
  [WebRequest "/api/avatar/process-text"
     (AvatarJson {| text := name sign;
                    gesture_type := category sign;
                    avatar_confidence := confidence sign |})].

(** [OnSignRecognized]; [shown] is the text built from the sign's name
    and formatted confidence. *)
Definition OnSignRecognized (shown : string) (sign : SignBridgeSign)
    (c : Connector) : Connector * list Effect :=
  (match recognizedSignText c with
   | Some _ => set_recognizedSignText (Some shown) c
   | None => c
   end,
   StartCoroutine (inr (CreateAvatarFromSign sign))).

(** The continuation of [SendToSignBridge] once its request has ended. *)
Definition SendToSignBridge_reply (shown : string)
    (reply : option SignBridgeResponse) (c : Connector)
  : Connector * list Effect :=
  match reply with
  | Some response =>
      if success response then
        match recognized_sign response with
        | Some sign => OnSignRecognized shown sign c
        | None => (c, [])
        end
      else (c, [])
  | None => (c, [])
  end.

(** Everything that can happen to a connector, one at a time: the button
    and the public setter, an assignment to [udpReceive.data] by whoever
    owns the receiver, an engine frame, and the end of a web request. *)
Inductive Event :=
| EToggleRecognition
| ESetRecognitionState (state : bool)
| EReceive (d : option string)
| EUpdate (now : Z)
| ESessionReply (reply : option SignBridgeResponse)
| ERequestReply (shown : string) (reply : option SignBridgeResponse).

Definition step (c : Connector) (ev : Event) : Connector * list Effect :=
  match ev with
  | EToggleRecognition => (ToggleRecognition c, [])
  | ESetRecognitionState b => (SetRecognitionState b c, [])
  | EReceive d => (receive d c, [])
  | EUpdate now => (c, Update c now)
  | ESessionReply reply => (StartLearningSession reply c, [])
  | ERequestReply shown reply => SendToSignBridge_reply shown reply c
  end.

Fixpoint run (c : Connector) (evs : list Event) : Connector * list Effect :=
  match evs with
  | [] => (c, [])
  | ev :: rest =>
      let '(c1, out1) := step c ev in
      let '(c2, out2) := run c1 rest in
      (c2, (out1 ++ out2)%list)
  end.

(** The engine frames of a run that find [isRecognizing] set. *)
Fixpoint active_updates (c : Connector) (evs : list Event) : nat :=
  match evs with
  | [] => 0
  | ev :: rest =>
      (match ev with
       | EUpdate _ => if isRecognizing c then 1 else 0
       | _ => 0
       end) + active_updates (step c ev).1 rest
  end.

(** A request to the recognition endpoint is a matcher invocation. *)
Definition is_match_request (e : Effect) : bool :=
  match e with
  | WebRequest endpoint (HandDataJson _) =>
      String.eqb endpoint "/api/recognize/advanced"
  | _ => false
  end.

Definition matcher_invocations (out : list Effect) : nat :=
  length (filter (λ e, is_match_request e = true) out).

(** The frame a payload decodes to, if the connector forwards one. *)
Definition decoded (out : list Effect) : option (list Landmark) :=
  match out with
  | [WebRequest _ (HandDataJson h)] => Some (landmarks h)
  | _ => None
  end.

End Connector.

(** The connector right after [Start()] with every reference bound. *)
Definition started {num} : @Connector num :=
  {| isRecognizing := false;
     currentSessionId := "";
     availableSigns := [];
     statusText := Some "Ready";
     recognizedSignText := Some "No sign recognized";
     handTracking := true;
     udpReceive := Some {| data := None |} |}.

(** The same connector, recognizing, its receiver holding [payload]. *)
Definition listening {num} (payload : string) : @Connector num :=
  receive (Some payload) (set_isRecognizing true started).

End Unity.

(* ===================================================================== *)
(** ** The wire form of a frame *)
(* ===================================================================== *)

Module Wire.
Import Unity.

(** A bracket-wrapped, comma-separated list of tokens. *)
Definition wrapped (tokens : list string) : string :=
  "[" +:+ String.concat "," tokens +:+ "]".

(** The same list without the brackets. *)
Definition unwrapped (tokens : list string) : string :=
  String.concat "," tokens.

(** A payload without its first and its last character. *)
Definition inner (data : string) : string :=
  substring 1 (String.length data - 2) data.

Fixpoint contains (c : ascii) (s : string) : bool :=
  match s with
  | EmptyString => false
  | String a rest => Ascii.eqb a c || contains c rest
  end.

Section Frames.
Context {num : Type}.

(** The 63 values of a frame, landmark by landmark. *)
Definition coordinates (frame : list (@Landmark num)) : list num :=
  flat_map (λ l, [x l; y l; z l]) frame.

(** Three values at a time. *)
Fixpoint group3 (values : list num) : list (@Landmark num) :=
  match values with
  | vx :: vy :: vz :: rest => {| x := vx; y := vy; z := vz |} :: group3 rest
  | _ => []
  end.


(** The request by which the connector forwards the frame made of
    [values]. *)
Definition forwards (c : @Connector num) (now : Z) (values : list num)
  : list (@Effect num) :=
  [WebRequest "/api/recognize/advanced"
     (HandDataJson {| landmarks := group3 values;
                      session_id := currentSessionId c;
                      timestamp := now |})].
End Frames.

End Wire.

(* ===================================================================== *)
(** ** SignBridgeTestManager: the simulated frame *)
(* ===================================================================== *)

Module TestManager.
Import Unity.

Definition simulatedData : string :=
  "[500, 500, 100, 600, 500, 110, 700, 500, 120, 800, 500, 130, 900, 500, 140, 600, 600, 150, 700, 650, 160, 800, 700, 170, 900, 750, 180, 1000, 800, 190, 500, 700, 200, 600, 750, 210, 700, 800, 220, 800, 850, 230, 900, 900, 240, 1000, 950, 250, 400, 800, 260, 500, 850, 270, 600, 900, 280, 700, 950, 290, 800, 1000, 300, 900, 1050, 310, 1000, 1100, 320, 1100, 1150, 330, 1200, 1200, 340, 1300, 1250, 350, 1400, 1300, 360, 1500, 1350, 370, 1600, 1400, 380, 1700, 1450, 390, 1800, 1500, 400, 1900, 1550, 410, 2000, 1600, 420, 2100, 1650, 430, 2200, 1700, 440, 2300, 1750, 450, 2400, 1800, 460, 2500, 1850, 470, 2600, 1900, 480, 2700, 1950, 490, 2800, 2000, 500, 2900, 2050, 510, 3000, 2100, 520, 3100, 2150, 530, 3200, 2200, 540, 3300, 2250, 550, 3400, 2300, 560, 3500, 2350, 570, 3600, 2400, 580, 3700, 2450, 590, 3800, 2500, 600, 3900, 2550, 610, 4000, 2600, 620, 4100, 2650, 630]".

(** The assignment of [TestHandData]. *)
Definition TestHandData {num} (c : @Connector num) : @Connector num :=
  receive (Some simulatedData) c.

(** [RunTest] as the connector sees it: [TestHandData] stores the frame,
    [TestSignBridgeConnection] later switches recognition on and, a second
    later, off again.  [before] and [during] are the clock readings of the
    engine frames that fall before and within that second. *)
Definition RunTest {num} (before during : list Z) : list (@Event num) :=
  ([EReceive (Some simulatedData)] ++ map EUpdate before
   ++ [ESetRecognitionState true] ++ map EUpdate during
   ++ [ESetRecognitionState false])%list.

End TestManager.

(* ===================================================================== *)
(** ** Integer literals: one reading of [float.Parse] *)
(* ===================================================================== *)

(** Where a payload is evaluated on concrete text, [float.Parse] is read on
    the literals the repository's payload is made of: decimal integers, an
    optional minus sign, white space allowed before and after.  The real
    function accepts more (fractions, exponents); the general statements
    below hold for every parser and do not depend on this one. *)
Module IntegerText.

(** The white space [float.Parse] skips: U+0009 to U+000D and U+0020. *)
Definition is_white (c : ascii) : bool :=
  let n := nat_of_ascii c in
  ((9 <=? n)%nat && (n <=? 13)%nat) || (n =? 32)%nat.

Fixpoint trim_start (s : string) : string :=
  match s with
  | EmptyString => EmptyString
  | String c rest => if is_white c then trim_start rest else s
  end.

Fixpoint trim_end (s : string) : string :=
  match s with
  | EmptyString => EmptyString
  | String c rest =>
      match trim_end rest with
      | EmptyString => if is_white c then EmptyString else String c EmptyString
      | kept => String c kept
      end
  end.

Definition parse_int (s : string) : option Z :=
  option_map Z.of_int (NilZero.int_of_string (trim_end (trim_start s))).

Definition show_int (n : Z) : string :=
  NilZero.string_of_int (Z.to_int n).

End IntegerText.

(* ===================================================================== *)
(** ** Values and primitives shared by the JavaScript and Python sources *)
(* ===================================================================== *)

Module Json.
(** A value as it crosses a process or network boundary. *)
#[warnings="-register-all"] Inductive value :=
| Undefined
| Null
| Bool (b : bool)
| Number (q : Q)
| Str (s : string)
| Array (items : list value)
| Object (fields : list (string * value)).
End Json.

Module JavaScript.

(** An entry of the sign lists of main.js and of the mobile screen.  The
    confidence literals (0.9, 0.85, ...) are kept as the decimal
    fractions they are written as. *)
Record Sign := {
  name : string;
  description : string;
  confidence : Q
}.

(** [Math.floor(Math.random() * n)], [random] being the number drawn. *)
Definition random_index (random : Q) (n : nat) : Z :=
  Qfloor (random * inject_Z (Z.of_nat n)).

(** [array[i]]: [None] is [undefined]. *)
Definition element {A} (array : list A) (i : Z) : option A :=
  if bool_decide (0 ≤ i)%Z then array !! Z.to_nat i else None.

Inductive Error :=
| ReferenceError (identifier : string)   (* "<identifier> is not defined" *)
| TypeError_of_undefined (property : string)
    (* reading a property of undefined or null *)
| TypeError_data_argument                (* fs.writeFileSync(path, undefined) *)
| SyntaxError                            (* JSON.parse *)
| ENOENT (path : string).                (* fs.readFileSync *)

(** The [error] field of a reply: a literal of the source or the message
    of what was caught. *)
Inductive ErrorText :=
| Literal (s : string)
| MessageOf (e : Error).

(** [{ success: true, ... }] or [{ success: false, error }]. *)
Inductive Reply (A : Type) :=
| Success (result : A)
| Failure (error : ErrorText).
Arguments Success {A} result.
Arguments Failure {A} error.

End JavaScript.

(* ===================================================================== *)
(** ** desktop/electron/main.js: the IPC handlers *)
(* ===================================================================== *)

Module Desktop.
Import JavaScript.

Definition mockSigns : list Sign := [
  {| name := "hello"; description := "Wave hand in greeting motion";
     confidence := (9 # 10)%Q |};
  {| name := "yes"; description := "Make fist and nod up and down";
     confidence := (9 # 10)%Q |};
  {| name := "no"; description := "Index finger shakes side to side";
     confidence := (85 # 100)%Q |};
  {| name := "thank_you";
     description := "Flat hand touches chin and moves forward";
     confidence := (85 # 100)%Q |};
  {| name := "please"; description := "Flat hand circles on chest";
     confidence := (85 # 100)%Q |}
].

Record Recognition := {
  sign : string;
  result_confidence : Q;
  result_description : string;
  ai_enabled : bool
}.

(** The [recognize-sign] handler; [random] is what [Math.random()]
    returns in this call. *)
Definition recognize_sign (imageData : Json.value) (random : Q)
  : Reply Recognition :=
  match element mockSigns (random_index random (length mockSigns)) with
  | Some randomSign =>
      Success {| sign := name randomSign;
                 result_confidence := confidence randomSign;
                 result_description := description randomSign;
                 ai_enabled := true |}
  | None => Failure (MessageOf (TypeError_of_undefined "name"))
  end.

(** The names bound at the top level of main.js. *)
Definition module_bindings : list string :=
  ["app"; "BrowserWindow"; "Menu"; "ipcMain"; "dialog"; "shell";
   "path"; "fs"; "SignBridgeDesktop"; "signBridgeApp"].

(** What an identifier that is no parameter or local of the handler
    evaluates to: a module binding (an object), else a property of the
    global object, else a [ReferenceError]. *)
Definition identifier (globalThis : gmap string Json.value) (id : string)
  : Error + Json.value :=
  if bool_decide (id ∈ module_bindings) then inr (Json.Object [])
  else match globalThis !! id with
       | Some v => inr v
       | None => inl (ReferenceError id)
       end.

(** [object.property] as far as it can throw. *)
Definition member (object : Json.value) (property : string)
  : Error + unit :=
  match object with
  | Json.Undefined | Json.Null => inl (TypeError_of_undefined property)
  | _ => inr tt
  end.

Record SaveDialogReturnValue := { canceled : bool; filePath : string }.

Section Conversations.
(** [JSON.stringify(value, null, 2)] ([None]: it returns [undefined])
    and [JSON.parse] ([None]: it throws). *)
Variable JSON_stringify : Json.value → option string.
Variable JSON_parse : string → option Json.value.

(** The [save-conversation] handler.  [chosen] is what the save dialog
    resolves to once it is shown; [files] maps a path to the text
    stored there. *)
Definition save_conversation (globalThis : gmap string Json.value)
    (chosen : SaveDialogReturnValue) (files : gmap string string)
    (conversationData : Json.value)
  : gmap string string * Reply string :=
  (* the options object: defaultPath: signbridge_conversation_.json *)
  match identifier globalThis "signbridge_conversation_" with
  | inl e => (files, Failure (MessageOf e))
  | inr object =>
      match member object "json" with
      | inl e => (files, Failure (MessageOf e))
      | inr _ =>
          if negb (canceled chosen) then
            match JSON_stringify conversationData with
            | Some text =>
                (<[filePath chosen := text]> files,
                 Success (filePath chosen))
            | None =>
                (files, Failure (MessageOf TypeError_data_argument))
            end
          else (files, Failure (Literal "Save cancelled"))
      end
  end.

(** The [load-conversation] handler. *)
Definition load_conversation (files : gmap string string)
    (path : string) : Reply Json.value :=
  match files !! path with
  | None => Failure (MessageOf (ENOENT path))
  | Some data =>
      match JSON_parse data with
      | Some conversation => Success conversation
      | None => Failure (MessageOf SyntaxError)
      end
  end.
End Conversations.

(** [JSON.stringify] and [JSON.parse] on the empty conversation [[]],
    which is all that running the handlers on it needs. *)
Definition stringify_empty (v : Json.value) : option string :=
  match v with
  | Json.Array [] => Some "[]"
  | _ => None
  end.

Definition parse_empty (s : string) : option Json.value :=
  if String.eqb s "[]" then Some (Json.Array []) else None.

(** A global object that has [process] and [console]. *)
Definition node_globals : gmap string Json.value :=
  <["process" := Json.Object []]> (<["console" := Json.Object []]> ∅).

End Desktop.

(* ===================================================================== *)
(** ** SignBridgeMobile: the capture screen *)
(* ===================================================================== *)

Module Mobile.
Import JavaScript.

Definition signsData : list Sign := [
  {| name := "hello"; description := "Wave hand in greeting motion";
     confidence := (9 # 10)%Q |};
  {| name := "yes"; description := "Make fist and nod up and down";
     confidence := (9 # 10)%Q |};
  {| name := "no"; description := "Index finger shakes side to side";
     confidence := (85 # 100)%Q |};
  {| name := "thank_you";
     description := "Flat hand touches chin and moves forward";
     confidence := (85 # 100)%Q |};
  {| name := "please"; description := "Flat hand circles on chest";
     confidence := (85 # 100)%Q |};
  {| name := "sorry"; description := "Closed fist circles on chest";
     confidence := (8 # 10)%Q |};
  {| name := "help"; description := "Closed fist taps on open palm";
     confidence := (85 # 100)%Q |};
  {| name := "water"; description := "W handshape taps chin";
     confidence := (8 # 10)%Q |};
  {| name := "food"; description := "Fingertips touch mouth";
     confidence := (85 # 100)%Q |};
  {| name := "bathroom"; description := "T handshape shakes";
     confidence := (8 # 10)%Q |};
  {| name := "love"; description := "Hands form heart shape";
     confidence := (9 # 10)%Q |};
  {| name := "happy"; description := "Both hands move up with smile";
     confidence := (8 # 10)%Q |};
  {| name := "sad"; description := "Hands move down with frown";
     confidence := (8 # 10)%Q |};
  {| name := "angry"; description := "Fist shakes";
     confidence := (85 # 100)%Q |};
  {| name := "surprised"; description := "Hands move up quickly";
     confidence := (8 # 10)%Q |};
  {| name := "tired"; description := "Hands on face, eyes closed";
     confidence := (8 # 10)%Q |};
  {| name := "hungry"; description := "Hand moves to mouth";
     confidence := (85 # 100)%Q |};
  {| name := "thirsty"; description := "Hand moves to throat";
     confidence := (85 # 100)%Q |};
  {| name := "emergency"; description := "Hand waves frantically";
     confidence := (9 # 10)%Q |};
  {| name := "stop"; description := "Hand forms stop sign";
     confidence := (95 # 100)%Q |}
].

Record Entry := {
  id : Z;
  timestamp : string;
  entry_sign : string;
  entry_description : string;
  entry_confidence : Q
}.

(** The state cells of the component that [capturePhoto] touches. *)
Record Screen := {
  currentSign : option Sign;
  shown_confidence : Q;
  conversationHistory : list Entry
}.

Definition initial : Screen :=
  {| currentSign := None; shown_confidence := 0%Q;
     conversationHistory := [] |}.

(** Every confidence the screen holds lies in [0,1]. *)
Definition unit_interval (q : Q) : Prop := (0 <= q)%Q ∧ (q <= 1)%Q.

Definition confident (s : Screen) : Prop :=
  unit_interval (shown_confidence s)
  ∧ (∀ sg, currentSign s = Some sg → unit_interval (confidence sg))
  ∧ Forall (λ e, unit_interval (entry_confidence e)) (conversationHistory s).

Inductive Alert :=
| SignRecognized
| CaptureFailed.     (* Alert.alert('Error', 'Failed to capture photo') *)

(** [capturePhoto].  [camera] tells whether [cameraRef.current] is set,
    [photo_taken] whether [takePhoto] resolves; [random], [now] and
    [clock] are what [Math.random()], [Date.now()] and
    [toLocaleTimeString()] return in this call. *)
Definition capturePhoto (camera photo_taken : bool) (random : Q) (now : Z)
    (clock : string) (s : Screen) : Screen * list Alert :=
  if camera then
    if photo_taken then
      match element signsData (random_index random (length signsData)) with
      | Some randomSign =>
          let newEntry :=
            {| id := now; timestamp := clock;
               entry_sign := name randomSign;
               entry_description := description randomSign;
               entry_confidence := confidence randomSign |} in
          ({| currentSign := Some randomSign;
              shown_confidence := confidence randomSign;
              conversationHistory :=
                (conversationHistory s ++ [newEntry])%list |},
           [SignRecognized])
      | None =>
          (* setCurrentSign(undefined), then reading .confidence throws *)
          ({| currentSign := None;
              shown_confidence := shown_confidence s;
              conversationHistory := conversationHistory s |},
           [CaptureFailed])
      end
    else (s, [CaptureFailed])
  else (s, []).

End Mobile.

(* ===================================================================== *)
(** ** The Flask endpoints of the integration guide *)
(* ===================================================================== *)

Module Backend.

(** [int(t)] on a clock reading: the fraction is cut off, toward zero. *)
Definition int (t : Q) : Z := Z.quot (Qnum t) (Z.pos (Qden t)).

(** [str(n)] inside an f-string. *)
Definition str (n : Z) : string := NilZero.string_of_int (Z.to_int n).

Record StartReply := {
  success : bool;
  session_id : string;
  message : string
}.

(** [start_hand_tracking]; [time_time] is what [time.time()] returns. *)
Definition start_hand_tracking (time_time : Q) : StartReply :=
  {| success := true;
     session_id := "ht_" +:+ str (int time_time);
     message := "Hand tracking session started" |}.

Record Recognised := {
  sign : string;
  category : string;
  confidence : Q
}.

Definition recognize_sign_from_landmarks (landmarks : Json.value)
  : Recognised :=
  {| sign := "Hello"; category := "greeting"; confidence := (92 # 100)%Q |}.

(** [d.get(key, default)] on a parsed JSON object: of several fields
    with one key the last counts. *)
Fixpoint dict_get (key : string) (fields : list (string * Json.value))
    (default : Json.value) : Json.value :=
  match fields with
  | [] => default
  | (k, v) :: rest =>
      if String.eqb k key
      then dict_get key rest v
      else dict_get key rest default
  end.

Inductive LandmarksReply :=
| Recognized (r : Recognised) (session_id : Json.value)   (* 200 *)
| ServerError.                                            (* 500 *)

(** [process_hand_landmarks]; [data] is [request.json]. *)
Definition process_hand_landmarks (data : Json.value) : LandmarksReply :=
  match data with
  | Json.Object fields =>
      let landmarks := dict_get "landmarks" fields (Json.Array []) in
      let session_id := dict_get "session_id" fields Json.Null in
      Recognized (recognize_sign_from_landmarks landmarks) session_id
  | _ => ServerError     (* no [get] on what is not a dict *)
  end.

End Backend.

(* ===================================================================== *)
(** ** SignBridgeConnector: the sign list, the replies, the status line *)
(* ===================================================================== *)

Module Signs.
Import CSharp Unity.

Section Signs.
Context {num : Type}.

Local Abbreviation Connector := (@Connector num).
Local Abbreviation SignBridgeSign := (@SignBridgeSign num).
Local Abbreviation SignBridgeResponse := (@SignBridgeResponse num).
Local Abbreviation Event := (@Event num).
Local Abbreviation Effect := (@Effect num).

Definition set_availableSigns (l : list SignBridgeSign) (c : Connector)
  : Connector :=
  {| isRecognizing := isRecognizing c;
     currentSessionId := currentSessionId c;
     availableSigns := l;
     statusText := statusText c;
     recognizedSignText := recognizedSignText c;
     handTracking := handTracking c;
     udpReceive := udpReceive c |}.

Definition GetAvailableSignsList (c : Connector) : list SignBridgeSign :=
  availableSigns c.

(** The line break of the C# literals. *)
Definition newline : string := String (ascii_of_nat 10) EmptyString.

(** One line of the list that is displayed: a bullet, the name, a line
    break. *)
Definition sign_line (s : SignBridgeSign) : string :=
  "• " +:+ name s +:+ newline.

(** [availableSigns[i]] on a [List<T>]. *)
Definition sign_at (signs : list SignBridgeSign) (i : nat)
  : throws SignBridgeSign :=
  match signs !! i with
  | Some s => inr s
  | None => inl ArgumentOutOfRangeException
  end.

(** The loop [for (int i = 0; i < Mathf.Min(5, availableSigns.Count); i++)]
    from index [i] with [remaining] rounds to go. *)
Fixpoint signs_loop (signs : list SignBridgeSign) (i remaining : nat)
    (signsText : string) : throws string :=
  match remaining with
  | O => inr signsText
  | S k =>
      s ← sign_at signs i;
      signs_loop signs (S i) k (signsText +:+ sign_line s)
  end.

Definition signs_text (signs : list SignBridgeSign) : throws string :=
  signs_loop signs 0 (Nat.min 5 (length signs))
    ("Available Signs:" +:+ newline).

(** The continuation of [GetSignsCoroutine] once the request has ended:
    [None] is a failed request.  What the loop throws ends the coroutine
    after the list has been replaced. *)
Definition GetSignsCoroutine (reply : option SignBridgeResponse)
    (c : Connector) : Connector * list Effect :=
  match reply with
  | Some response =>
      if success response then
        match signs response with
        | Some l =>
            let c1 := set_availableSigns l c in
            match signs_text l with
            | inr signsText =>
                (match recognizedSignText c1 with
                 | Some _ => set_recognizedSignText (Some signsText) c1
                 | None => c1
                 end, [])
            | inl e => (c1, [CoroutineFault e])
            end
        | None => (c, [])
        end
      else (c, [])
  | None => (c, [])
  end.

(** A sequence of replies to [GetAvailableSigns]. *)
Fixpoint sign_replies (c : Connector)
    (replies : list (option SignBridgeResponse)) : Connector :=
  match replies with
  | [] => c
  | reply :: rest => sign_replies (GetSignsCoroutine reply c).1 rest
  end.

(** The list a reply delivers, if it delivers one. *)
Definition delivered (reply : option SignBridgeResponse)
  : option (list SignBridgeSign) :=
  match reply with
  | Some response => if success response then signs response else None
  | None => None
  end.

(** The status line says what [isRecognizing] is. *)
Definition status_consistent (c : Connector) : Prop :=
  ∀ shown, statusText c = Some shown →
    shown = if isRecognizing c then "Recognizing..." else "Ready".

(** A reply that starts a session. *)
Definition starts_session (ev : Event) : bool :=
  match ev with
  | ESessionReply (Some response) => success response
  | _ => false
  end.

(** The session ids that the replies of a run deliver, in order. *)
Definition session_messages (evs : list Event) : list string :=
  flat_map (λ ev, match ev with
                  | ESessionReply (Some response) =>
                      if success response then [message response] else []
                  | _ => []
                  end) evs.

(** A reply that carries a recognized sign. *)
Definition recognised_reply (ev : Event) : bool :=
  match ev with
  | ERequestReply _ (Some response) =>
      success response && bool_decide (is_Some (recognized_sign response))
  | _ => false
  end.

Definition is_avatar_request (e : Effect) : bool :=
  match e with
  | WebRequest endpoint (AvatarJson _) =>
      String.eqb endpoint "/api/avatar/process-text"
  | _ => false
  end.

Definition avatar_requests (out : list Effect) : nat :=
  length (filter (λ e, is_avatar_request e = true) out).

(** The clock readings of the engine frames of a run. *)
Definition update_times (evs : list Event) : list Z :=
  flat_map (λ ev, match ev with EUpdate now => [now] | _ => [] end) evs.

End Signs.
End Signs.

(* ===================================================================== *)
(** ** SignBridgeTestManager: the monitor and the test switch *)
(* ===================================================================== *)

Module Monitor.
Import CSharp Unity.

(** [int] arithmetic wraps around. *)
Definition Int32 (n : Z) : Z := ((n + 2 ^ 31) mod 2 ^ 32 - 2 ^ 31)%Z.

(** [s.Substring(startIndex, length)]. *)
Definition Substring (s : string) (startIndex length : Z) : throws string :=
  if bool_decide (startIndex < 0 ∨ length < 0
                  ∨ Z.of_nat (String.length s) < startIndex + length)%Z
  then inl ArgumentOutOfRangeException
  else inr (substring (Z.to_nat startIndex) (Z.to_nat length) s).

(** What the data line shows: the three values its text is built from. *)
Record DataShown := {
  shown_count : Z;
  shown_age : Q;           (* Time.time - lastDataTime *)
  shown_data : string      (* the beginning of the payload *)
}.

(** The fields of the test manager that its [Update], [StartTest],
    [AutoTest] and [RunTest] read and write, the receiver it shares with the
    connector, and [running]: the [RunTest] coroutines that have begun and
    not ended. *)
Record Manager := {
  enableAutoTest : bool;
  isTesting : bool;
  lastDataTime : Q;
  dataCount : Z;
  statusText : option string;        (* None: no UI element bound *)
  dataText : option (option DataShown);
      (* None: no UI element bound; Some None: nothing written yet *)
  udpReceive : option UDPReceive;
  running : nat
}.

Definition UpdateStatus (time : Q) (m : Manager) : Manager :=
  match statusText m with
  | Some _ =>
      {| enableAutoTest := enableAutoTest m;
         isTesting := isTesting m;
         lastDataTime := lastDataTime m;
         dataCount := dataCount m;
         statusText :=
           Some (if isTesting m then "Testing Integration..."
                 else if Qlt_le_dec (time - lastDataTime m) 5
                      then "Receiving Data ✅"
                      else "Waiting for Data ⏳");
         dataText := dataText m;
         udpReceive := udpReceive m;
         running := running m |}
  | None => m
  end.

(** The part of [Update] that runs when the receiver holds [payload]. *)
Definition monitor_data (time : Q) (payload : string) (m : Manager)
  : throws Manager :=
  let count := Int32 (dataCount m + 1) in
  shown ← match dataText m with
          | Some _ =>
              beginning ← Substring payload 0
                            (Z.min 50 (Z.of_nat (String.length payload)));
              mret (Some (Some {| shown_count := count;
                                  shown_age := (time - time)%Q;
                                  shown_data := beginning |}))
          | None => mret None
          end;
  mret {| enableAutoTest := enableAutoTest m;
          isTesting := isTesting m;
          lastDataTime := time;
          dataCount := count;
          statusText := statusText m;
          dataText := shown;
          udpReceive := udpReceive m;
          running := running m |}.

(** [Update]; [time] is [Time.time] in this engine frame. *)
Definition Update (time : Q) (m : Manager) : throws Manager :=
  m1 ← match udpReceive m with
       | Some {| data := Some payload |} =>
           if negb (IsNullOrEmpty (Some payload))
           then monitor_data time payload m
           else mret m
       | _ => mret m
       end;
  mret (UpdateStatus time m1).

Definition set_testing (b : bool) (status : string) (n : nat) (m : Manager)
  : Manager :=
  {| enableAutoTest := enableAutoTest m;
     isTesting := b;
     lastDataTime := lastDataTime m;
     dataCount := dataCount m;
     statusText := match statusText m with
                   | Some _ => Some status
                   | None => None
                   end;
     dataText := dataText m;
     udpReceive := udpReceive m;
     running := n |}.

(** [RunTest] up to its first wait, and from its last wait on. *)
Definition RunTest_begins (m : Manager) : Manager :=
  set_testing true "Running Integration Test..." (S (running m)) m.

Definition RunTest_ends (m : Manager) : Manager :=
  set_testing false "Test Complete ✅" (pred (running m)) m.

Definition StartTest (m : Manager) : Manager :=
  if negb (isTesting m) then RunTest_begins m else m.

(** One round of the loop of [AutoTest] from the end of its wait on (the
    loop has looked at [enableAutoTest] before the wait). *)
Definition AutoTest_round (m : Manager) : Manager :=
  if negb (isTesting m) then RunTest_begins m else m.

Definition EnableAutoTest (enable : bool) (m : Manager) : Manager :=
  {| enableAutoTest := enable;
     isTesting := isTesting m;
     lastDataTime := lastDataTime m;
     dataCount := dataCount m;
     statusText := statusText m;
     dataText := dataText m;
     udpReceive := udpReceive m;
     running := running m |}.

Definition assign_data (d : option string) (m : Manager) : Manager :=
  {| enableAutoTest := enableAutoTest m;
     isTesting := isTesting m;
     lastDataTime := lastDataTime m;
     dataCount := dataCount m;
     statusText := statusText m;
     dataText := dataText m;
     udpReceive := match udpReceive m with
                   | Some _ => Some {| data := d |}
                   | None => None
                   end;
     running := running m |}.

Inductive Happening :=
| HUpdate (time : Q)
| HReceive (d : option string)
| HStartTest
| HAutoTest
| HEnableAutoTest (enable : bool)
| HRunTestEnds.       (* a [RunTest] that has begun reaches its end *)

Definition happen (m : Manager) (h : Happening) : throws Manager :=
  match h with
  | HUpdate time => Update time m
  | HReceive d => mret (assign_data d m)
  | HStartTest => mret (StartTest m)
  | HAutoTest => mret (AutoTest_round m)
  | HEnableAutoTest enable => mret (EnableAutoTest enable m)
  | HRunTestEnds =>
      mret (match running m with O => m | S _ => RunTest_ends m end)
  end.

Fixpoint happenings (m : Manager) (hs : list Happening) : throws Manager :=
  match hs with
  | [] => mret m
  | h :: rest => m1 ← happen m h; happenings m1 rest
  end.

(** The manager right after [Start()], every UI element and the receiver
    bound, before [AutoTest] has run a round. *)
Definition started : Manager :=
  {| enableAutoTest := true;
     isTesting := false;
     lastDataTime := 0%Q;
     dataCount := 0%Z;
     statusText := Some "Ready for Testing";
     dataText := Some None;
     udpReceive := Some {| data := None |};
     running := 0 |}.

(** The engine frames of a run that find data in the receiver. *)
Fixpoint frames_with_data (m : Manager) (hs : list Happening) : Z :=
  match hs with
  | [] => 0%Z
  | h :: rest =>
      ((match h, udpReceive m with
        | HUpdate _, Some {| data := Some payload |} =>
            if negb (IsNullOrEmpty (Some payload)) then 1 else 0
        | _, _ => 0
        end)
       + match happen m h with
         | inr m1 => frames_with_data m1 rest
         | inl _ => 0
         end)%Z
  end.

End Monitor.

(* ===================================================================== *)
(** ** SignBridgeMobile: sequences of taps *)
(* ===================================================================== *)

Module Taps.
Import JavaScript Mobile.

(** [clearHistory]; [confirmed] tells which button of the alert is
    pressed. *)
Definition clearHistory (confirmed : bool) (s : Screen) : Screen :=
  if confirmed then
    {| currentSign := currentSign s;
       shown_confidence := shown_confidence s;
       conversationHistory := [] |}
  else s.

Inductive Tap :=
| Capture (camera photo_taken : bool) (random : Q) (now : Z) (clock : string)
| Clear (confirmed : bool).

Definition tap (s : Screen) (t : Tap) : Screen :=
  match t with
  | Capture camera photo_taken random now clock =>
      (capturePhoto camera photo_taken random now clock s).1
  | Clear confirmed => clearHistory confirmed s
  end.

Definition taps (s : Screen) (ts : list Tap) : Screen := fold_left tap ts s.

(** The draw of a capture lies in [0,1), as [Math.random()] promises. *)
Definition fair (t : Tap) : Prop :=
  match t with
  | Capture _ _ random _ _ => (0 <= random)%Q ∧ (random < 1)%Q
  | Clear _ => True
  end.

(** The captures that reach the recognizer, counted since the last
    confirmed clearing. *)
Fixpoint recognized_since_clear (ts : list Tap) (n : nat) : nat :=
  match ts with
  | [] => n
  | Capture camera photo_taken _ _ _ :: rest =>
      recognized_since_clear rest
        (if camera && photo_taken then S n else n)
  | Clear confirmed :: rest =>
      recognized_since_clear rest (if confirmed then 0 else n)
  end.

(** What the result panel shows belongs to the sign it shows. *)
Definition panel_consistent (s : Screen) : Prop :=
  ∀ sg, currentSign s = Some sg →
    sg ∈ signsData ∧ shown_confidence s = confidence sg.

(** An entry of the history repeats a sign of the list. *)
Definition from_signsData (e : Entry) : Prop :=
  ∃ sg, sg ∈ signsData
        ∧ entry_sign e = name sg
        ∧ entry_description e = description sg
        ∧ entry_confidence e = confidence sg.


End Taps.

(* ===================================================================== *)
(** * Facts about the embedded code *)
(* ===================================================================== *)

(** ** Strings: [Remove], [Split] and the comma-separated form *)

Section StringFacts.
Import CSharp Wire.

Lemma append_cons (c : ascii) (s t : string) :
  String c s +:+ t = String c (s +:+ t).
Proof. reflexivity. Qed.

Lemma append_nil (t : string) : "" +:+ t = t.
Proof. reflexivity. Qed.

Lemma length_app_string (s t : string) :
  String.length (s +:+ t) = String.length s + String.length t.
Proof.
  induction s as [|c s IH]; [done|].
  rewrite append_cons. simpl. by rewrite IH.
Qed.

Lemma substring_zero_length (n : nat) (s : string) : substring n 0 s = "".
Proof.
  revert s; induction n as [|n IH]; intros [|c s]; simpl; auto.
Qed.

Lemma substring_prefix (s t : string) :
  substring 0 (String.length s) (s +:+ t) = s.
Proof.
  induction s as [|c s IH].
  - apply (substring_zero_length 0).
  - rewrite append_cons. simpl. by rewrite IH.
Qed.

Lemma append_empty_r (s : string) : s +:+ "" = s.
Proof.
  induction s as [|c s IH]; [done|]. by rewrite append_cons, IH.
Qed.

Lemma substring_whole (s : string) : substring 0 (String.length s) s = s.
Proof.
  pose proof (substring_prefix s "") as H.
  by rewrite append_empty_r in H.
Qed.

(** Dropping the first character. *)
Lemma Remove_first (a : ascii) (s : string) :
  Remove (String a s) 0 1 = inr s.
Proof.
  unfold Remove. rewrite bool_decide_eq_false_2.
  - f_equal. simpl String.length.
    replace (Z.to_nat (Z.of_nat (S (String.length s)) - 0 - 1))
      with (String.length s) by lia.
    change (Z.to_nat 0) with 0. change (Z.to_nat (0 + 1)) with 1.
    simpl substring. rewrite append_nil. apply substring_whole.
  - simpl String.length. lia.
Qed.

(** Dropping the last character. *)
Lemma Remove_last (s : string) (b : ascii) :
  let t := s +:+ String b "" in
  Remove t (Z.of_nat (String.length t) - 1) 1 = inr s.
Proof.
  intros t. unfold Remove.
  assert (Hlen : String.length t = S (String.length s)).
  { unfold t. rewrite length_app_string. simpl. lia. }
  rewrite bool_decide_eq_false_2 by lia.
  f_equal. rewrite Hlen.
  replace (Z.to_nat (Z.of_nat (S (String.length s)) - 1))
    with (String.length s) by lia.
  replace (Z.to_nat (Z.of_nat (S (String.length s))
                     - (Z.of_nat (S (String.length s)) - 1) - 1))
    with 0 by lia.
  rewrite substring_zero_length, append_empty_r.
  unfold t. apply substring_prefix.
Qed.

(** A string of two characters or more has a first character, a last
    one, and something in between. *)
Lemma last_of_string (rest : string) :
  (1 ≤ String.length rest)%nat →
  ∃ body b, rest = body +:+ String b "".
Proof.
  induction rest as [|c rest IH]; simpl; [lia|]. intros _.
  destruct rest as [|d rest].
  - by exists "", c.
  - destruct IH as (body & b & Heq); [simpl; lia|].
    exists (String c body), b. by rewrite append_cons, <- Heq.
Qed.

Lemma ends_of_string (data : string) :
  (2 ≤ String.length data)%nat →
  ∃ a body b, data = String a (body +:+ String b "").
Proof.
  destruct data as [|a rest]; simpl; [lia|]. intros Hlen.
  destruct (last_of_string rest) as (body & b & ->); [lia|].
  by exists a, body, b.
Qed.

Lemma inner_ends (a b : ascii) (body : string) :
  inner (String a (body +:+ String b "")) = body.
Proof.
  unfold inner. simpl String.length. rewrite length_app_string.
  simpl String.length.
  replace (S (String.length body + 1) - 2) with (String.length body) by lia.
  simpl substring. apply substring_prefix.
Qed.

(** [Split] never returns the empty list. *)
Lemma Split_nonempty (sep : ascii) (s : string) : Split sep s ≠ [].
Proof.
  destruct s as [|c s]; simpl; [done|].
  destruct (Ascii.eqb c sep); [done|].
  by destruct (Split sep s).
Qed.

(** A piece without separator, followed by a separator. *)
Lemma Split_piece (sep : ascii) (piece rest : string) :
  contains sep piece = false →
  Split sep (piece +:+ String sep rest) = piece :: Split sep rest.
Proof.
  induction piece as [|c piece IH]; intros Hc.
  - rewrite append_nil. simpl. by rewrite Ascii.eqb_refl.
  - simpl in Hc. apply orb_false_iff in Hc as [Hc1 Hc2].
    rewrite append_cons. simpl. by rewrite Hc1, (IH Hc2).
Qed.

Lemma Split_single (sep : ascii) (piece : string) :
  contains sep piece = false → Split sep piece = [piece].
Proof.
  induction piece as [|c piece IH]; simpl; intros Hc; [done|].
  apply orb_false_iff in Hc as [Hc1 Hc2].
  by rewrite Hc1, (IH Hc2).
Qed.

(** Splitting a comma-separated list gives its tokens back. *)
Lemma Split_concat (sep : ascii) (tokens : list string) :
  tokens ≠ [] →
  Forall (λ t, contains sep t = false) tokens →
  Split sep (String.concat (String sep "") tokens) = tokens.
Proof.
  induction tokens as [|t tokens IH]; [done|]. intros _ Hall.
  apply Forall_cons in Hall as [Ht Hall].
  destruct tokens as [|t' tokens].
  - simpl. by apply Split_single.
  - change (String.concat (String sep "") (t :: t' :: tokens))
      with (t +:+ String sep (String.concat (String sep "") (t' :: tokens))).
    rewrite Split_piece by done. by rewrite IH.
Qed.

End StringFacts.

(** ** The connector: what one payload leads to *)

Section ConnectorFacts.
Import CSharp Unity Wire.
Context {num : Type}.
Variable float_Parse : string → option num.

Local Abbreviation Landmark := (@Landmark num).
Local Abbreviation Connector := (@Connector num).



Lemma group3_triples (n : nat) (values : list num) :
  length values = 3 * n →
  length (group3 values) = n ∧ coordinates (group3 values) = values.
Proof.
  revert values. induction n as [|n IH]; intros values Hlen.
  - destruct values; [done | simpl in Hlen; lia].
  - destruct values as [|vx [|vy [|vz rest]]]; simpl in Hlen; try lia.
    destruct (IH rest) as [Hl Hc]; [lia|].
    simpl. split; [by rewrite Hl | by rewrite Hc].
Qed.

Lemma Parse_at_drop (points : list string) (i j : nat) (token : string) :
  drop i points !! j = Some token →
  Parse_at float_Parse points (i + j) =
    match float_Parse token with
    | Some v => inr v
    | None => inl FormatException
    end.
Proof.
  intros Hl. rewrite lookup_drop in Hl. unfold Parse_at. by rewrite Hl.
Qed.

(** The loop reads the tokens three at a time from [3 * i] on, and stops
    at the first one that does not parse. *)
Lemma landmark_loop_spec (points : list string) (remaining i : nat)
    (acc : list Landmark) :
  (3 * (i + remaining) ≤ length points)%nat →
  landmark_loop float_Parse points i remaining acc =
    match mapM float_Parse (take (3 * remaining) (drop (3 * i) points)) with
    | Some values => inr (acc ++ group3 values)%list
    | None => inl FormatException
    end.
Proof.
  revert i acc. induction remaining as [|k IH]; intros i acc Hlen.
  - simpl. by rewrite app_nil_r.
  - cbn [landmark_loop].
    rewrite bool_decide_eq_true_2 by lia.
    assert (Hd : (3 ≤ length (drop (3 * i) points))%nat)
      by (rewrite length_drop; lia).
    destruct (drop (3 * i) points) as [|t0 [|t1 [|t2 rest]]] eqn:Hdrop;
      simpl in Hd; try lia.
    assert (Hrest : drop (3 * S i) points = rest).
    { replace (3 * S i) with (3 * i + 3) by lia.
      by rewrite <- drop_drop, Hdrop. }
    replace (i * 3) with (3 * i + 0) by lia.
    replace (3 * i + 0 + 1) with (3 * i + 1) by lia.
    replace (3 * i + 0 + 2) with (3 * i + 2) by lia.
    rewrite (Parse_at_drop points (3 * i) 0 t0) by (by rewrite Hdrop).
    rewrite (Parse_at_drop points (3 * i) 1 t1) by (by rewrite Hdrop).
    rewrite (Parse_at_drop points (3 * i) 2 t2) by (by rewrite Hdrop).
    replace (3 * S k) with (S (S (S (3 * k)))) by lia.
    cbn [take mapM].
    destruct (float_Parse t0) as [v0|]; cbn; [|done].
    destruct (float_Parse t1) as [v1|]; cbn; [|done].
    destruct (float_Parse t2) as [v2|]; cbn; [|done].
    change (k + (k + (k + 0))) with (3 * k).
    rewrite IH; [|lia]. rewrite Hrest.
    destruct (mapM float_Parse (take (3 * k) rest)) as [values|]; cbn.
    + by rewrite <- app_assoc.
    + done.
Qed.

(** What a recognizing connector does with a payload of two characters
    or more: the first and the last character go, the rest is split at
    the commas, fewer than 63 tokens are dropped, and the first 63 are
    parsed. *)
Lemma process_ends (c : Connector) (now : Z) (a b : ascii) (body : string) :
  isRecognizing c = true →
  holds c (String a (body +:+ String b "")) →
  ProcessHandTrackingData float_Parse c now
  = if bool_decide (63 ≤ length (Split "," body))%nat then
      match mapM float_Parse (take 63 (Split "," body)) with
      | Some values => forwards c now values
      | None => [CoroutineFault FormatException]
      end
    else [].
Proof.
  intros Hrec Hdata. unfold ProcessHandTrackingData, process_try, read_data.
  rewrite Hrec, Hdata. cbn [negb mbind throws_bind].
  rewrite Remove_first. cbn [mbind throws_bind].
  rewrite (Remove_last body b). cbn [mbind throws_bind].
  case_bool_decide as Hlen; [|done].
  cbn [mret throws_ret]. unfold SendHandDataToSignBridge.
  rewrite landmark_loop_spec by (simpl; lia).
  change (3 * 21) with 63. change (3 * 0) with 0. rewrite drop_0.
  destruct (mapM float_Parse (take 63 (Split "," body))); done.
Qed.

(** A payload of fewer than two characters makes [Remove] throw inside
    the [try]; the handler logs it. *)
Lemma process_short (c : Connector) (now : Z) (payload : string) :
  isRecognizing c = true → holds c payload →
  (String.length payload < 2)%nat →
  ProcessHandTrackingData float_Parse c now
  = [LogError ArgumentOutOfRangeException].
Proof.
  intros Hrec Hdata Hlen.
  unfold ProcessHandTrackingData, process_try, read_data.
  rewrite Hrec, Hdata.
  destruct payload as [|a [|b rest]]; simpl in Hlen; try lia; done.
Qed.

(** No receiver, or no data in it: the [try] catches the null reference. *)
Lemma process_null (c : Connector) (now : Z) :
  isRecognizing c = true → read_data c = inl NullReferenceException →
  ProcessHandTrackingData float_Parse c now = [LogError NullReferenceException].
Proof.
  intros Hrec Hnull. unfold ProcessHandTrackingData, process_try.
  by rewrite Hrec, Hnull.
Qed.

Lemma process_inactive (c : Connector) (now : Z) :
  isRecognizing c = false →
  ProcessHandTrackingData float_Parse c now = [].
Proof. intros Hrec. unfold ProcessHandTrackingData. by rewrite Hrec. Qed.

Lemma holds_or_null (c : Connector) :
  (∃ payload, holds c payload) ∨ read_data c = inl NullReferenceException.
Proof.
  unfold holds, read_data.
  destruct (udpReceive c) as [[[d|]]|]; [left; by exists d | by right..].
Qed.

(** The four things a call can leave behind. *)
Lemma process_cases (c : Connector) (now : Z) :
  ProcessHandTrackingData float_Parse c now = []
  ∨ (∃ e, ProcessHandTrackingData float_Parse c now = [LogError e])
  ∨ ProcessHandTrackingData float_Parse c now = [CoroutineFault FormatException]
  ∨ ∃ points values,
      (63 ≤ length points)%nat
      ∧ mapM float_Parse (take 63 points) = Some values
      ∧ ProcessHandTrackingData float_Parse c now = forwards c now values.
Proof.
  destruct (isRecognizing c) eqn:Hrec; [|left; by apply process_inactive].
  destruct (holds_or_null c) as [[payload Hdata]|Hnull].
  2:{ right; left. eexists. by apply process_null. }
  destruct (le_lt_dec 2 (String.length payload)) as [Hlen|Hlen].
  2:{ right; left. eexists. by eapply process_short. }
  destruct (ends_of_string payload Hlen) as (a & body & b & ->).
  rewrite (process_ends c now a b body) by done.
  case_bool_decide as H63; [|by left].
  destruct (mapM float_Parse (take 63 (Split "," body))) as [values|] eqn:Hp.
  - right; right; right. by exists (Split "," body), values.
  - right; right; by left.
Qed.

End ConnectorFacts.

(** ** Integer literals are read back as written *)

Section IntegerTextFacts.
Import Wire IntegerText.

(** Neither white space nor a comma. *)
Local Abbreviation plain :=
  (λ c : ascii, is_white c = false ∧ Ascii.eqb c "," = false).

Lemma plain_uint (d : Decimal.uint) :
  Forall plain (list_ascii_of_string (NilEmpty.string_of_uint d)).
Proof. induction d; simpl; constructor; auto. Qed.

Lemma plain_show_int (n : Z) :
  Forall plain (list_ascii_of_string (show_int n)).
Proof.
  unfold show_int, NilZero.string_of_int, NilZero.string_of_uint.
  destruct (Z.to_int n) as [d|d].
  - destruct d; try apply plain_uint. by repeat constructor.
  - simpl. constructor; [done|].
    destruct d; try apply plain_uint. by repeat constructor.
Qed.


Lemma trim_start_plain (s : string) :
  Forall plain (list_ascii_of_string s) → trim_start s = s.
Proof.
  destruct s as [|c s]; simpl; [done|].
  intros [[Hw _] _]%Forall_cons. by rewrite Hw.
Qed.

Lemma trim_end_plain (s : string) :
  Forall plain (list_ascii_of_string s) → trim_end s = s.
Proof.
  induction s as [|c s IH]; simpl; [done|].
  intros [[Hw _] Hs]%Forall_cons. rewrite (IH Hs), Hw.
  by destruct s.
Qed.

Lemma to_int_proper (n : Z) :
  Z.to_int n ≠ Decimal.Pos Decimal.Nil ∧ Z.to_int n ≠ Decimal.Neg Decimal.Nil.
Proof.
  destruct n as [|p|p]; simpl; split; try done;
    intros [= H]; by apply (DecimalPos.Unsigned.to_uint_nonnil p).
Qed.

(** What [show_int] writes, [parse_int] reads. *)
Lemma parse_show_int (n : Z) : parse_int (show_int n) = Some n.
Proof.
  unfold parse_int.
  rewrite trim_start_plain, trim_end_plain by apply plain_show_int.
  unfold show_int. destruct (to_int_proper n) as [Hp Hn].
  rewrite NilZero.isi by done. simpl. by rewrite DecimalZ.of_to.
Qed.



Lemma show_int_inj (m n : Z) : show_int m = show_int n → m = n.
Proof.
  intros Heq. apply (f_equal parse_int) in Heq.
  rewrite !parse_show_int in Heq. by injection Heq.
Qed.

End IntegerTextFacts.

(** ** Which payloads are forwarded *)

Section Decoding.
Import CSharp Unity Wire.
Context {num : Type}.
Variable float_Parse : string → option num.

Local Abbreviation Connector := (@Connector num).
Local Abbreviation Effect := (@Effect num).

Lemma decoded_forwards (c : Connector) (now : Z) (values : list num) :
  decoded (forwards c now values) = Some (group3 values).
Proof. reflexivity. Qed.

Lemma parsed_63 (points : list string) (values : list num) :
  (63 ≤ length points)%nat →
  mapM float_Parse (take 63 points) = Some values →
  length (group3 values) = 21.
Proof.
  intros Hlen Hparse. apply length_mapM in Hparse.
  rewrite length_take in Hparse.
  apply (group3_triples 21). lia.
Qed.

(** Whatever the payload and whatever the state, a request that carries
    landmarks carries 21 of them: no partial frame leaves the connector. *)
Lemma no_partial_frame (c : Connector) (now : Z) (endpoint : string)
    (h : HandData) :
  WebRequest endpoint (HandDataJson h)
    ∈ ProcessHandTrackingData float_Parse c now →
  length (landmarks h) = 21.
Proof.
  destruct (process_cases float_Parse c now)
    as [-> | [[e ->] | [-> | (points & values & H63 & Hp & ->)]]].
  - by intros ?%elem_of_nil.
  - by intros [=]%list_elem_of_singleton.
  - by intros [=]%list_elem_of_singleton.
  - intros [= _ ->]%list_elem_of_singleton. simpl. by eapply parsed_63.
Qed.

(** A token among the first 63 that is no number: [float.Parse] throws
    inside the coroutine, past the [try] of the caller, and nothing is
    sent. *)
Lemma non_numeric_token_faults (c : Connector) (now : Z) (a b : ascii)
    (tokens : list string) :
  isRecognizing c = true →
  holds c (String a (unwrapped tokens +:+ String b "")) →
  (63 ≤ length tokens)%nat →
  Forall (λ t, contains "," t = false) tokens →
  Exists (λ t, float_Parse t = None) (take 63 tokens) →
  ProcessHandTrackingData float_Parse c now
  = [CoroutineFault FormatException].
Proof.
  intros Hrec Hdata Hlen Hcomma Hbad.
  rewrite (process_ends float_Parse c now a b (unwrapped tokens)) by done.
  unfold unwrapped.
  rewrite Split_concat; [|intros ->; simpl in Hlen; lia | done].
  rewrite bool_decide_eq_true_2 by done.
  apply mapM_None_2 in Hbad. by rewrite Hbad.
Qed.

(** C1, as the code has it: a recognizing connector forwards a frame
    exactly when the payload has two characters or more, what lies between
    its first and last character splits into at least 63 tokens, and the
    first 63 of them are numbers; the frame is made of those 63 values and
    has 21 landmarks, whatever follows them; a payload with fewer than 63
    tokens is dropped without any effect. *)
Theorem decode_forwards_iff_63_tokens_parse (c : Connector) (now : Z)
    (payload : string) :
  isRecognizing c = true →
  holds c payload →
  let out := ProcessHandTrackingData float_Parse c now in
  let points := Split "," (inner payload) in
  (∀ frame, decoded out = Some frame ↔
      (2 ≤ String.length payload)%nat ∧ (63 ≤ length points)%nat ∧
      ∃ values, mapM float_Parse (take 63 points) = Some values
                ∧ frame = group3 values)
  ∧ (∀ frame, decoded out = Some frame → length frame = 21)
  ∧ ((2 ≤ String.length payload)%nat → (length points < 63)%nat → out = []).
Proof.
  intros Hrec Hdata out points.
  destruct (le_lt_dec 2 (String.length payload)) as [Hlen|Hlen].
  - destruct (ends_of_string payload Hlen) as (a & body & b & Hpayload).
    assert (Hpoints : points = Split "," body)
      by (unfold points; by rewrite Hpayload, inner_ends).
    assert (Hout : out =
      if bool_decide (63 ≤ length points)%nat then
        match mapM float_Parse (take 63 points) with
        | Some values => forwards c now values
        | None => [CoroutineFault FormatException]
        end
      else []).
    { unfold out. rewrite Hpayload in Hdata.
      rewrite (process_ends float_Parse c now a b body) by done.
      by rewrite Hpoints. }
    clearbody out points. subst out.
    case_bool_decide as H63.
    + destruct (mapM float_Parse (take 63 points)) as [values|] eqn:Hp.
      * rewrite decoded_forwards. split; [|split].
        -- intros frame. split.
           ++ intros [= <-]. repeat split; try done. by exists values.
           ++ intros (_ & _ & values' & [= <-] & ->). done.
        -- intros frame [= <-]. by eapply parsed_63.
        -- lia.
      * split; [|split]; try done; try lia.
        intros frame. split; [done|].
        by intros (_ & _ & values' & [=] & _).
    + split; [|split]; try done.
      intros frame. split; [done|]. intros (_ & ? & _). lia.
  - assert (Hout : out = [LogError ArgumentOutOfRangeException])
      by (by eapply process_short).
    rewrite Hout. split; [|split]; try done; try lia.
    intros frame. split; [done|]. intros (? & _). lia.
Qed.

End Decoding.

Import CSharp Unity Wire TestManager IntegerText.

(** The test manager's frame in the receiver of a recognizing connector. *)
Lemma decode_forwards_iff_63_tokens_parse_witness :
  @isRecognizing Z (listening simulatedData) = true
  ∧ @holds Z (listening simulatedData) simulatedData
  ∧ let out := ProcessHandTrackingData parse_int (listening simulatedData) 0 in
    let points := Split "," (inner simulatedData) in
    (∀ frame, decoded out = Some frame ↔
        (2 ≤ String.length simulatedData)%nat ∧ (63 ≤ length points)%nat ∧
        ∃ values, mapM parse_int (take 63 points) = Some values
                  ∧ frame = group3 values)
    ∧ (∀ frame, decoded out = Some frame → length frame = 21)
    ∧ ((2 ≤ String.length simulatedData)%nat → (length points < 63)%nat →
       out = []).
Proof.
  split; [reflexivity|]. split; [reflexivity|].
  apply (decode_forwards_iff_63_tokens_parse parse_int
           (listening simulatedData) 0 simulatedData); reflexivity.
Defined.

(** C1 as stated fails: a payload of 64 values (no multiple of 3) and the
    test manager's own payload of 162 values (54 landmarks, not 21) are both
    forwarded as frames. *)
Lemma decode_admits_longer_payloads :
  let sixty_four := wrapped (repeat "1" 64) in
  (length (Split "," (inner sixty_four)) = 64
   ∧ 64 mod 3 ≠ 0
   ∧ ∃ frame,
       decoded (ProcessHandTrackingData parse_int (listening sixty_four) 0)
       = Some frame ∧ length frame = 21)
  ∧ (length (Split "," (inner simulatedData)) = 162
     ∧ 162 / 3 ≠ 21
     ∧ ∃ frame,
         decoded (ProcessHandTrackingData parse_int (listening simulatedData) 0)
         = Some frame ∧ length frame = 21).
Proof.
  cbv zeta. split; (split; [by vm_compute|]); (split; [by vm_compute|]);
    eexists; (split; [vm_compute; reflexivity | reflexivity]).
Qed.

(** C2 at a payload whose first token is no number: the exception of
    [float.Parse] is not caught by the [try] of [ProcessHandTrackingData]
    (no error is logged there); it ends the coroutine. *)
Theorem non_numeric_token_escapes_try :
  ProcessHandTrackingData parse_int
    (listening (wrapped ("abc" :: repeat "0" 62))) 0
  = [CoroutineFault FormatException].
Proof. by vm_compute. Qed.

(** ** The recognition gate over runs of events *)

Section Gate.
Context {num : Type}.
Variable float_Parse : string → option num.

Local Abbreviation Connector := (@Connector num).
Local Abbreviation Event := (@Event num).
Local Abbreviation Effect := (@Effect num).

Lemma matcher_invocations_app (out1 out2 : list Effect) :
  matcher_invocations (out1 ++ out2)%list
  = matcher_invocations out1 + matcher_invocations out2.
Proof.
  unfold matcher_invocations. by rewrite filter_app, length_app.
Qed.

Lemma run_app (c : Connector) (evs1 evs2 : list Event) :
  run float_Parse c (evs1 ++ evs2)%list
  = let '(c1, out1) := run float_Parse c evs1 in
    let '(c2, out2) := run float_Parse c1 evs2 in
    (c2, (out1 ++ out2)%list).
Proof.
  revert c. induction evs1 as [|ev evs1 IH]; intros c; simpl.
  - by destruct (run float_Parse c evs2).
  - destruct (step float_Parse c ev) as [c1 out1].
    rewrite IH.
    destruct (run float_Parse c1 evs1) as [c2 out2].
    destruct (run float_Parse c2 evs2) as [c3 out3].
    by rewrite app_assoc.
Qed.

(** One call leads to one matcher invocation at most. *)
Lemma process_at_most_one (c : Connector) (now : Z) :
  (matcher_invocations (ProcessHandTrackingData float_Parse c now) ≤ 1)%nat.
Proof.
  destruct (process_cases float_Parse c now)
    as [-> | [[e ->] | [-> | (points & values & _ & _ & ->)]]];
    compute; lia.
Qed.

(** An engine frame that finds recognition off does nothing at all. *)
Lemma Update_inactive (c : Connector) (now : Z) :
  isRecognizing c = false → Update float_Parse c now = [].
Proof.
  intros Hrec. unfold Update.
  destruct (handTracking c); [|done].
  destruct (udpReceive c) as [receiver|]; [|done].
  destruct (negb (IsNullOrEmpty (data receiver))); [|done].
  by apply process_inactive.
Qed.

Lemma Update_at_most_one (c : Connector) (now : Z) :
  (matcher_invocations (Update float_Parse c now) ≤ 1)%nat.
Proof.
  unfold Update.
  destruct (handTracking c); [|compute; lia].
  destruct (udpReceive c) as [receiver|]; [|compute; lia].
  destruct (negb (IsNullOrEmpty (data receiver))); [|compute; lia].
  apply process_at_most_one.
Qed.

(** An event invokes the matcher only if it is an engine frame that finds
    recognition on. *)
Lemma step_bound (c : Connector) (ev : Event) :
  (matcher_invocations (step float_Parse c ev).2
   ≤ match ev with
     | EUpdate _ => if isRecognizing c then 1 else 0
     | _ => 0
     end)%nat.
Proof.
  destruct ev as [|state|d|now|reply|shown reply]; simpl; try done.
  - destruct (isRecognizing c) eqn:Hrec.
    + apply Update_at_most_one.
    + by rewrite Update_inactive.
  - unfold SendToSignBridge_reply, OnSignRecognized.
    destruct reply as [r|]; [|done].
    destruct (success r); [|done].
    destruct (recognized_sign r); done.
Qed.

Lemma run_bound (c : Connector) (evs : list Event) :
  (matcher_invocations (run float_Parse c evs).2
   ≤ active_updates float_Parse c evs)%nat.
Proof.
  revert c. induction evs as [|ev evs IH]; intros c; simpl; [done|].
  pose proof (step_bound c ev) as Hstep.
  specialize (IH (step float_Parse c ev).1).
  destruct (step float_Parse c ev) as [c1 out1]. simpl in *.
  destruct (run float_Parse c1 evs) as [c2 out2]. simpl in *.
  rewrite matcher_invocations_app. lia.
Qed.

(** An engine frame that finds recognition on and a valid frame in the
    receiver sends it to the matcher. *)
Lemma Update_valid (c : Connector) (now : Z) (tokens : list string) :
  isRecognizing c = true → handTracking c = true →
  holds c (wrapped tokens) →
  length tokens = 63 →
  Forall (λ t, contains "," t = false) tokens →
  Forall (λ t, is_Some (float_Parse t)) tokens →
  matcher_invocations (Update float_Parse c now) = 1.
Proof.
  intros Hrec Hh Hdata Hlen Hcomma Hnum. unfold Update.
  rewrite Hh. pose proof Hdata as Hu. unfold holds in Hu. rewrite Hu.
  change (wrapped tokens)
    with (String "[" (unwrapped tokens +:+ String "]" "")) in *.
  cbn [data IsNullOrEmpty negb].
  rewrite (process_ends float_Parse c now "[" "]" (unwrapped tokens)) by done.
  unfold unwrapped.
  rewrite Split_concat; [|intros ->; simpl in Hlen; lia | done].
  rewrite bool_decide_eq_true_2 by lia.
  rewrite take_ge by lia.
  apply mapM_is_Some_2 in Hnum as [values Hvalues]. by rewrite Hvalues.
Qed.

(** C4, as the code has it: every matcher invocation of a run stems from
    an engine frame that finds recognition on, and an engine frame that
    finds it off does nothing; an engine frame that finds recognition on and
    a valid frame in the receiver invokes the matcher once and leaves the
    frame where it is, so that as many engine frames as follow match it as
    many times. *)
Theorem matcher_invoked_per_active_update (c : Connector) (evs : list Event)
    (tokens : list string) (nows : list Z) :
  (matcher_invocations (run float_Parse c evs).2
   ≤ active_updates float_Parse c evs)%nat
  ∧ (isRecognizing c = false → ∀ now, Update float_Parse c now = [])
  ∧ (isRecognizing c = true → handTracking c = true →
     holds c (wrapped tokens) →
     length tokens = 63 →
     Forall (λ t, contains "," t = false) tokens →
     Forall (λ t, is_Some (float_Parse t)) tokens →
     (run float_Parse c (map EUpdate nows)).1 = c
     ∧ matcher_invocations (run float_Parse c (map EUpdate nows)).2
       = length nows).
Proof.
  split; [apply run_bound|].
  split; [intros Hrec now; by apply Update_inactive|].
  intros Hrec Hh Hdata Hlen Hcomma Hnum.
  induction nows as [|now nows [IHc IHn]]; [done|].
  cbn [map run step].
  destruct (run float_Parse c (map EUpdate nows)) as [c1 out1].
  simpl in IHc, IHn. subst c1. cbn [fst snd]. split; [done|].
  rewrite matcher_invocations_app, IHn.
  by rewrite (Update_valid c now tokens).
Qed.

End Gate.

Lemma repeat_Forall {A} (P : A → Prop) (x : A) (n : nat) :
  P x → Forall P (repeat x n).
Proof. intros Hx. induction n; simpl; by constructor. Qed.

(** [TestHandData] is the first event of [RunTest]. *)
Lemma TestHandData_step (c : @Connector Z) :
  step parse_int c (EReceive (Some simulatedData)) = (TestHandData c, []).
Proof. reflexivity. Qed.

(** Three engine frames over one stored frame. *)
Lemma matcher_invoked_per_active_update_witness :
  @isRecognizing Z (listening (wrapped (repeat "7" 63))) = true
  ∧ @handTracking Z (listening (wrapped (repeat "7" 63))) = true
  ∧ @holds Z (listening (wrapped (repeat "7" 63))) (wrapped (repeat "7" 63))
  ∧ length (repeat "7" 63) = 63
  ∧ Forall (λ t, contains "," t = false) (repeat "7" 63)
  ∧ Forall (λ t, is_Some (parse_int t)) (repeat "7" 63)
  ∧ (run parse_int (listening (wrapped (repeat "7" 63)))
       (map EUpdate [0; 1; 2]%Z)).1
    = listening (wrapped (repeat "7" 63))
  ∧ matcher_invocations
      (run parse_int (listening (wrapped (repeat "7" 63)))
         (map EUpdate [0; 1; 2]%Z)).2
    = length [0; 1; 2]%Z.
Proof.
  split; [reflexivity|]. split; [reflexivity|]. split; [reflexivity|].
  split; [reflexivity|].
  split; [by apply repeat_Forall|].
  split; [apply repeat_Forall; by eexists|].
  apply (proj2 (proj2 (matcher_invoked_per_active_update parse_int
                         (listening (wrapped (repeat "7" 63))) []
                         (repeat "7" 63) [0; 1; 2]%Z))); try reflexivity.
  - by apply repeat_Forall.
  - apply repeat_Forall; by eexists.
Defined.

(** C4 as stated fails on the test manager's own run: its frame is
    stored while recognition is off and is matched once recognition is on,
    three times in three engine frames. *)
Lemma stored_frame_matched_on_every_update :
  let evs : list (@Event Z) := RunTest [0; 1]%Z [2; 3; 4]%Z in
  @isRecognizing Z started = false
  ∧ evs = [EReceive (Some simulatedData); EUpdate 0; EUpdate 1;
           ESetRecognitionState true; EUpdate 2; EUpdate 3; EUpdate 4;
           ESetRecognitionState false]
  ∧ matcher_invocations (run parse_int started evs).2 = 3
  ∧ matcher_invocations
      (run parse_int started
         [EReceive (Some (wrapped (repeat "7" 63)));
          EToggleRecognition; EUpdate 0; EUpdate 1]).2 = 2.
Proof.
  cbv zeta. repeat split; by vm_compute.
Qed.

(** ** Encoded frames and their delimiters *)

Section Codec.
Context {num : Type}.
Variable float_Parse : string → option num.

Local Abbreviation Connector := (@Connector num).
Local Abbreviation Landmark := (@Landmark num).

Lemma append_assoc_string (s t u : string) :
  (s +:+ t) +:+ u = s +:+ (t +:+ u).
Proof.
  induction s as [|a s IH]; [done|]. by rewrite !append_cons, IH.
Qed.






End Codec.





(** ** The simulated recognizers (main.js, mobile screen) *)

Section Recognizers.
Import JavaScript.

Lemma random_index_range (random : Q) (n : nat) :
  (0 <= random)%Q → (random < 1)%Q → (0 < n)%nat →
  (0 ≤ random_index random n < Z.of_nat n)%Z.
Proof.
  intros H0 H1 Hn. unfold random_index.
  assert (Hpos : (0 < inject_Z (Z.of_nat n))%Q).
  { change 0%Q with (inject_Z 0). rewrite <- Zlt_Qlt. lia. }
  split.
  - change 0%Z with (Qfloor 0). apply Qfloor_resp_le.
    apply Qmult_le_0_compat; [done|]. by apply Qlt_le_weak.
  - rewrite Zlt_Qlt.
    eapply Qle_lt_trans; [apply Qfloor_le|].
    rewrite <- (Qmult_1_l (inject_Z (Z.of_nat n))) at 2.
    by apply Qmult_lt_compat_r.
Qed.

Lemma element_Some {A} (array : list A) (i : Z) (a : A) :
  element array i = Some a ↔ (0 ≤ i)%Z ∧ array !! Z.to_nat i = Some a.
Proof.
  unfold element. case_bool_decide; split; try done; by intros [? ?].
Qed.

Lemma element_in_range {A} (array : list A) (i : Z) :
  (0 ≤ i < Z.of_nat (length array))%Z →
  ∃ a, element array i = Some a ∧ a ∈ array.
Proof.
  intros Hi.
  destruct (lookup_lt_is_Some_2 array (Z.to_nat i)) as [a Ha]; [lia|].
  exists a. split; [apply element_Some; split; [lia | done]|].
  by eapply list_elem_of_lookup_2.
Qed.


Lemma mockSigns_names :
  name <$> Desktop.mockSigns = ["hello"; "yes"; "no"; "thank_you"; "please"].
Proof. reflexivity. Qed.



(** The confidences of both lists lie between 0.8 and 0.95. *)
Lemma mockSigns_confidence :
  Forall (λ s, (8 # 10 <= confidence s)%Q ∧ (confidence s <= 95 # 100)%Q)
    Desktop.mockSigns.
Proof. repeat constructor; by vm_compute. Qed.

Lemma signsData_confidence :
  Forall (λ s, (8 # 10 <= confidence s)%Q ∧ (confidence s <= 95 # 100)%Q)
    Mobile.signsData.
Proof. repeat constructor; by vm_compute. Qed.

Lemma between_in_unit_interval (q : Q) :
  (8 # 10 <= q)%Q ∧ (q <= 95 # 100)%Q → Mobile.unit_interval q.
Proof.
  intros [Hlo Hhi]. split.
  - eapply Qle_trans; [|exact Hlo]. by vm_compute.
  - eapply Qle_trans; [exact Hhi|]. by vm_compute.
Qed.

End Recognizers.

Section RecognizerClaims.
Import JavaScript.

(** With a draw in [0,1) the handler finds an entry of [mockSigns]. *)
Lemma recognize_sign_entry (imageData : Json.value) (random : Q) :
  (0 <= random)%Q → (random < 1)%Q →
  ∃ entry,
    element Desktop.mockSigns
      (random_index random (length Desktop.mockSigns)) = Some entry
    ∧ entry ∈ Desktop.mockSigns
    ∧ Desktop.recognize_sign imageData random
      = Success {| Desktop.sign := name entry;
                   Desktop.result_confidence := confidence entry;
                   Desktop.result_description := description entry;
                   Desktop.ai_enabled := true |}.
Proof.
  intros H0 H1.
  destruct (element_in_range Desktop.mockSigns
              (random_index random (length Desktop.mockSigns)))
    as (entry & Hentry & Hin).
  { apply random_index_range; try done. simpl. lia. }
  exists entry. repeat split; try done.
  unfold Desktop.recognize_sign. by rewrite Hentry.
Qed.

(** C10: for every argument and every draw of [Math.random()] the
    [recognize-sign] handler replies with success and one of the five
    names; the argument has no influence on the reply. *)
Theorem recognize_sign_total (imageData : Json.value) (random : Q) :
  (0 <= random)%Q → (random < 1)%Q →
  (∃ r, Desktop.recognize_sign imageData random = Success r
        ∧ Desktop.sign r ∈ ["hello"; "yes"; "no"; "thank_you"; "please"])
  ∧ (∀ other, Desktop.recognize_sign other random
              = Desktop.recognize_sign imageData random).
Proof.
  intros H0 H1. split; [|done].
  destruct (recognize_sign_entry imageData random H0 H1)
    as (entry & _ & Hin & ->).
  eexists. split; [done|]. simpl.
  rewrite <- mockSigns_names. by apply list_elem_of_fmap_2.
Qed.

(** C8: every candidate the desktop handler returns, every confidence the
    mobile screen ever holds, and the confidence of the endpoint's
    recognizer lie in [0,1]. *)
Theorem candidate_confidence_in_unit_interval :
  (∀ imageData random r,
      Desktop.recognize_sign imageData random = Success r →
      (0 <= Desktop.result_confidence r)%Q
      ∧ (Desktop.result_confidence r <= 1)%Q)
  ∧ Mobile.confident Mobile.initial
  ∧ (∀ camera photo_taken random now clock s,
       Mobile.confident s →
       Mobile.confident
         (Mobile.capturePhoto camera photo_taken random now clock s).1)
  ∧ (∀ landmarks,
       Mobile.unit_interval
         (Backend.confidence (Backend.recognize_sign_from_landmarks landmarks))).
Proof.
  split; [|split; [|split]].
  - intros imageData random r. unfold Desktop.recognize_sign.
    destruct (element Desktop.mockSigns _) as [entry|] eqn:Hentry; [|done].
    intros [= <-]. simpl.
    apply element_Some in Hentry as [_ Hentry].
    apply list_elem_of_lookup_2 in Hentry.
    apply between_in_unit_interval.
    by apply (proj1 (Forall_forall _ _) mockSigns_confidence).
  - repeat split; done.
  - intros camera photo_taken random now clock s (Hshown & Hsign & Hhist).
    unfold Mobile.capturePhoto.
    destruct camera; [|done]. destruct photo_taken; [|done].
    destruct (element Mobile.signsData _) as [entry|] eqn:Hentry.
    + apply element_Some in Hentry as [_ Hentry].
      apply list_elem_of_lookup_2 in Hentry.
      assert (Hunit : Mobile.unit_interval (confidence entry)).
      { apply between_in_unit_interval.
        by apply (proj1 (Forall_forall _ _) signsData_confidence). }
      unfold Mobile.confident. simpl. split; [done|]. split.
      * by intros sg [= <-].
      * apply Forall_app. split; [done|].
        constructor; [exact Hunit | constructor].
    + unfold Mobile.confident. simpl. split; [done|]. by split.
  - intros landmarks. split; by vm_compute.
Qed.


End RecognizerClaims.

Lemma recognize_sign_total_witness :
  (0 <= 1 # 2)%Q ∧ (1 # 2 < 1)%Q
  ∧ (∃ r, Desktop.recognize_sign Json.Null (1 # 2) = JavaScript.Success r
          ∧ Desktop.sign r ∈ ["hello"; "yes"; "no"; "thank_you"; "please"])
  ∧ (∀ other, Desktop.recognize_sign other (1 # 2)
              = Desktop.recognize_sign Json.Null (1 # 2)).
Proof.
  split; [by vm_compute|]. split; [by vm_compute|].
  apply (recognize_sign_total Json.Null (1 # 2)); by vm_compute.
Defined.

Lemma candidate_confidence_in_unit_interval_witness :
  Desktop.recognize_sign (Json.Str "frame") (1 # 2)
  = JavaScript.Success
      {| Desktop.sign := "no";
         Desktop.result_confidence := (85 # 100)%Q;
         Desktop.result_description := "Index finger shakes side to side";
         Desktop.ai_enabled := true |}
  ∧ (0 <= 85 # 100)%Q ∧ (85 # 100 <= 1)%Q.
Proof.
  split; [reflexivity|].
  apply (proj1 candidate_confidence_in_unit_interval
           (Json.Str "frame") (1 # 2)%Q
           {| Desktop.sign := "no";
              Desktop.result_confidence := (85 # 100)%Q;
              Desktop.result_description := "Index finger shakes side to side";
              Desktop.ai_enabled := true |}).
  reflexivity.
Defined.



(** ** Saving and loading a conversation *)

Section Conversations.
Import JavaScript Desktop.
Variable JSON_stringify : Json.value → option string.
Variable JSON_parse : string → option Json.value.

Lemma module_bindings_lack_default_name :
  "signbridge_conversation_" ∉ module_bindings.
Proof. apply (bool_decide_unpack _). by vm_compute. Qed.

(** Were the identifier of the dialog options bound to an object, a save
    that is not cancelled followed by a load of the chosen path would give
    the conversation back, as far as [JSON.parse] undoes
    [JSON.stringify]. *)
Lemma save_then_load_if_options_evaluate
    (globalThis : gmap string Json.value) (chosen : SaveDialogReturnValue)
    (files : gmap string string) (conversationData : Json.value)
    (fields : list (string * Json.value)) (text : string) :
  globalThis !! "signbridge_conversation_" = Some (Json.Object fields) →
  canceled chosen = false →
  JSON_stringify conversationData = Some text →
  JSON_parse text = Some conversationData →
  let saved :=
    save_conversation JSON_stringify globalThis chosen files conversationData
  in
  saved.2 = Success (filePath chosen)
  ∧ load_conversation JSON_parse saved.1 (filePath chosen)
    = Success conversationData.
Proof.
  intros Hid Hcancel Htext Hparse. unfold save_conversation, identifier.
  rewrite bool_decide_eq_false_2 by apply module_bindings_lack_default_name.
  rewrite Hid. simpl. rewrite Hcancel, Htext. simpl. split; [done|].
  unfold load_conversation. by rewrite lookup_insert_eq, Hparse.
Qed.

(** C9 on the code: [signbridge_conversation_] is bound nowhere, so
    building the dialog options throws a [ReferenceError]; the handler
    replies with failure whatever the conversation and whatever the dialog
    would have returned, writes nothing, and a load of the chosen path
    finds what was there before. *)
Theorem save_conversation_never_writes
    (globalThis : gmap string Json.value) (chosen : SaveDialogReturnValue)
    (files : gmap string string) (conversationData : Json.value) :
  globalThis !! "signbridge_conversation_" = None →
  save_conversation JSON_stringify globalThis chosen files conversationData
  = (files, Failure (MessageOf (ReferenceError "signbridge_conversation_")))
  ∧ load_conversation JSON_parse
      (save_conversation JSON_stringify globalThis chosen files
         conversationData).1 (filePath chosen)
    = load_conversation JSON_parse files (filePath chosen).
Proof.
  intros Hid.
  assert (Hsave :
    save_conversation JSON_stringify globalThis chosen files conversationData
    = (files, Failure (MessageOf (ReferenceError "signbridge_conversation_")))).
  { unfold save_conversation, identifier.
    rewrite bool_decide_eq_false_2
      by apply module_bindings_lack_default_name.
    by rewrite Hid. }
  by rewrite Hsave.
Qed.

End Conversations.

(** The empty conversation, a dialog that is confirmed, no file yet. *)
Lemma save_conversation_never_writes_witness :
  Desktop.node_globals !! "signbridge_conversation_" = None
  ∧ Desktop.save_conversation Desktop.stringify_empty Desktop.node_globals
      {| Desktop.canceled := false; Desktop.filePath := "conversation.json" |}
      ∅ (Json.Array [])
    = (∅, JavaScript.Failure
            (JavaScript.MessageOf
               (JavaScript.ReferenceError "signbridge_conversation_")))
  ∧ Desktop.load_conversation Desktop.parse_empty
      (Desktop.save_conversation Desktop.stringify_empty Desktop.node_globals
         {| Desktop.canceled := false; Desktop.filePath := "conversation.json" |}
         ∅ (Json.Array [])).1 "conversation.json"
    = Desktop.load_conversation Desktop.parse_empty ∅ "conversation.json".
Proof.
  split; [reflexivity|].
  apply (save_conversation_never_writes Desktop.stringify_empty
           Desktop.parse_empty Desktop.node_globals
           {| Desktop.canceled := false;
              Desktop.filePath := "conversation.json" |}
           ∅ (Json.Array [])).
  reflexivity.
Defined.

(** What the load of the chosen path finds after the failed save. *)
Lemma load_after_failed_save :
  Desktop.load_conversation Desktop.parse_empty
    (Desktop.save_conversation Desktop.stringify_empty Desktop.node_globals
       {| Desktop.canceled := false; Desktop.filePath := "conversation.json" |}
       ∅ (Json.Array [])).1 "conversation.json"
  = JavaScript.Failure (JavaScript.MessageOf (JavaScript.ENOENT "conversation.json")).
Proof. reflexivity. Qed.

(** ** Session ids *)

Section Sessions.
Import Backend.

Lemma str_inj (m n : Z) : str m = str n → m = n.
Proof. apply show_int_inj. Qed.

(** C7, as the code has it: the ids of two starts are the same exactly
    when the whole seconds of their clock readings are; a connector holds
    one id, which the reply of a later successful start replaces; and the
    landmark endpoint answers for every session id it is sent, without
    checking it. *)
Theorem session_ids_by_whole_second :
  (∀ t1 t2,
      session_id (start_hand_tracking t1) = session_id (start_hand_tracking t2)
      ↔ int t1 = int t2)
  ∧ (∀ (num : Type) (c : @Connector num) r1 r2,
       Unity.success r1 = true → Unity.success r2 = true →
       GetCurrentSessionId
         (StartLearningSession (Some r2) (StartLearningSession (Some r1) c))
       = Unity.message r2)
  ∧ (∀ fields,
       process_hand_landmarks (Json.Object fields)
       = Recognized
           (recognize_sign_from_landmarks
              (dict_get "landmarks" fields (Json.Array [])))
           (dict_get "session_id" fields Json.Null)).
Proof.
  split; [|split].
  - intros t1 t2. unfold start_hand_tracking. simpl. split.
    + intros [= Heq]. by apply str_inj.
    + by intros ->.
  - intros num c r1 r2 H1 H2. unfold StartLearningSession.
    by rewrite H1, H2.
  - done.
Qed.

End Sessions.

Lemma session_ids_by_whole_second_witness :
  @Unity.success Z {| Unity.success := true; Unity.message := "ht_1000";
                      Unity.signs := None; Unity.recognized_sign := None |}
  = true
  ∧ @Unity.success Z {| Unity.success := true; Unity.message := "ht_1001";
                        Unity.signs := None; Unity.recognized_sign := None |}
    = true
  ∧ GetCurrentSessionId
      (StartLearningSession
         (Some {| Unity.success := true; Unity.message := "ht_1001";
                  Unity.signs := None; Unity.recognized_sign := None |})
         (StartLearningSession
            (Some {| Unity.success := true; Unity.message := "ht_1000";
                     Unity.signs := None; Unity.recognized_sign := None |})
            (@started Z)))
    = "ht_1001".
Proof.
  split; [reflexivity|]. split; [reflexivity|].
  apply (proj1 (proj2 session_ids_by_whole_second) Z started
           {| Unity.success := true; Unity.message := "ht_1000";
              Unity.signs := None; Unity.recognized_sign := None |}
           {| Unity.success := true; Unity.message := "ht_1001";
              Unity.signs := None; Unity.recognized_sign := None |});
    reflexivity.
Defined.

(** C7 as stated fails: two starts half a second apart get the same id, and
    the endpoint still answers for it. *)
Lemma starts_within_one_second_share_id :
  ((5001 # 5) < (10007 # 10))%Q
  ∧ Backend.session_id (Backend.start_hand_tracking (5001 # 5)) = "ht_1000"
  ∧ Backend.session_id (Backend.start_hand_tracking (10007 # 10)) = "ht_1000"
  ∧ Backend.process_hand_landmarks
      (Json.Object [("session_id", Json.Str "ht_1000")])
    = Backend.Recognized
        (Backend.recognize_sign_from_landmarks (Json.Array []))
        (Json.Str "ht_1000").
Proof. repeat split; by vm_compute. Qed.

(* ===================================================================== *)
(** * Further facts: the rest of the connector *)
(* ===================================================================== *)

Section ConnectorRuns.
Import Signs.
Context {num : Type}.
Variable float_Parse : string → option num.

Local Abbreviation Connector := (@Connector num).
Local Abbreviation Event := (@Event num).
Local Abbreviation Effect := (@Effect num).

(** An engine frame does nothing or calls [ProcessHandTrackingData]. *)
Lemma Update_cases (c : Connector) (now : Z) :
  Update float_Parse c now = []
  ∨ Update float_Parse c now = ProcessHandTrackingData float_Parse c now.
Proof.
  unfold Update. destruct (handTracking c); [|by left].
  destruct (udpReceive c) as [receiver|]; [|by left].
  destruct (negb (IsNullOrEmpty (data receiver))); [by right | by left].
Qed.

(** What an engine frame can send. *)
Lemma Update_request (c : Connector) (now : Z) (endpoint : string)
    (h : HandData) :
  WebRequest endpoint (HandDataJson h) ∈ Update float_Parse c now →
  endpoint = "/api/recognize/advanced" ∧ length (landmarks h) = 21
  ∧ timestamp h = now ∧ session_id h = currentSessionId c.
Proof.
  destruct (Update_cases c now) as [-> | ->]; [by intros ?%elem_of_nil|].
  destruct (process_cases float_Parse c now)
    as [-> | [[e ->] | [-> | (points & values & H63 & Hp & ->)]]].
  - by intros ?%elem_of_nil.
  - by intros [=]%list_elem_of_singleton.
  - by intros [=]%list_elem_of_singleton.
  - intros [= -> ->]%list_elem_of_singleton. simpl.
    repeat split. by eapply parsed_63.
Qed.

(** The replies send avatar requests only. *)
Lemma reply_request (c : Connector) (shown : string)
    (reply : option SignBridgeResponse) (endpoint : string) (h : HandData) :
  WebRequest endpoint (HandDataJson h)
    ∉ (SendToSignBridge_reply shown reply c).2.
Proof.
  unfold SendToSignBridge_reply, OnSignRecognized.
  destruct reply as [r|]; [|by intros ?%elem_of_nil].
  destruct (success r); [|by intros ?%elem_of_nil].
  destruct (recognized_sign r); [|by intros ?%elem_of_nil].
  by intros [=]%list_elem_of_singleton.
Qed.

Lemma step_request (c : Connector) (ev : Event) (endpoint : string)
    (h : HandData) :
  WebRequest endpoint (HandDataJson h) ∈ (step float_Parse c ev).2 →
  ∃ now, ev = EUpdate now
         ∧ WebRequest endpoint (HandDataJson h) ∈ Update float_Parse c now.
Proof.
  destruct ev as [|state|d|now|reply|shown reply]; simpl;
    try by intros ?%elem_of_nil.
  - intros Hin. by exists now.
  - by intros ?%reply_request.
Qed.

(** X1: whatever happens to a connector, every frame it sends goes to the
    recognition endpoint, has 21 landmarks, and bears the clock reading of
    one of the engine frames of the run. *)
Theorem sent_frames_are_complete (c : Connector) (evs : list Event)
    (endpoint : string) (h : HandData) :
  WebRequest endpoint (HandDataJson h) ∈ (run float_Parse c evs).2 →
  endpoint = "/api/recognize/advanced"
  ∧ length (landmarks h) = 21
  ∧ timestamp h ∈ update_times evs.
Proof.
  revert c. induction evs as [|ev evs IH]; intros c; simpl.
  - by intros ?%elem_of_nil.
  - specialize (IH (step float_Parse c ev).1).
    pose proof (step_request c ev endpoint h) as Hstep.
    destruct (step float_Parse c ev) as [c1 out1]. simpl in IH, Hstep.
    destruct (run float_Parse c1 evs) as [c2 out2]. simpl in *.
    intros [Hin|Hin]%elem_of_app.
    + destruct (Hstep Hin) as (now & -> & Hup).
      apply Update_request in Hup as (-> & Hl & <- & _).
      repeat split; try done. simpl. by left.
    + destruct (IH Hin) as (-> & Hl & Ht). repeat split; try done.
      apply elem_of_app. by right.
Qed.

(** X2: an engine frame with nothing to read does nothing, whether or not
    recognition is on: a reference is not set, or the receiver's data is
    null or empty.  A payload of one character is caught by the [try]:
    one error is logged and nothing is sent. *)
Theorem Update_without_payload (c : Connector) (now : Z) :
  (handTracking c = false ∨ udpReceive c = None
   ∨ udpReceive c = Some {| data := None |} ∨ holds c "" →
   Update float_Parse c now = [])
  ∧ (∀ a, isRecognizing c = true → handTracking c = true →
          holds c (String a "") →
          Update float_Parse c now = [LogError ArgumentOutOfRangeException]).
Proof.
  split.
  - unfold Update, holds.
    intros [Hh | [Hu | [Hu | Hu]]]; rewrite ?Hh, ?Hu; try done;
      by destruct (handTracking c).
  - intros a Hrec Hh Hdata. unfold Update. rewrite Hh.
    pose proof Hdata as Hu. unfold holds in Hu. rewrite Hu.
    cbn [data IsNullOrEmpty negb].
    apply (process_short float_Parse c now (String a "")); try done.
    simpl. lia.
Qed.

Lemma UpdateStatus_consistent (c : Connector) :
  status_consistent (UpdateStatus c).
Proof.
  unfold status_consistent, UpdateStatus.
  destruct (statusText c) as [old|] eqn:Hold; simpl.
  - by intros shown [= <-].
  - by rewrite Hold.
Qed.

Lemma step_status (c : Connector) (ev : Event) :
  status_consistent c → status_consistent (step float_Parse c ev).1.
Proof.
  intros Hc.
  destruct ev as [|state|d|now|reply|shown reply]; simpl;
    try apply UpdateStatus_consistent; try done.
  - unfold StartLearningSession.
    destruct reply as [r|]; [destruct (success r)|]; done.
  - unfold SendToSignBridge_reply, OnSignRecognized.
    destruct reply as [r|]; [|done].
    destruct (success r); [|done].
    destruct (recognized_sign r); [|done].
    simpl. by destruct (recognizedSignText c).
Qed.

(** X3: after [ToggleRecognition] or [SetRecognitionState] the status line,
    if one is bound, reads "Recognizing..." exactly when recognition is on,
    and nothing that happens to the connector afterwards makes it say
    otherwise. *)
Theorem status_line_follows_recognition (c : Connector) (evs : list Event) :
  status_consistent (ToggleRecognition c)
  ∧ (∀ state, status_consistent (SetRecognitionState state c))
  ∧ (status_consistent c → status_consistent (run float_Parse c evs).1).
Proof.
  split; [apply UpdateStatus_consistent|].
  split; [intros state; apply UpdateStatus_consistent|].
  revert c. induction evs as [|ev evs IH]; intros c Hc; simpl; [done|].
  pose proof (step_status c ev Hc) as Hstep.
  destruct (step float_Parse c ev) as [c1 out1]. simpl in Hstep.
  specialize (IH c1 Hstep).
  by destruct (run float_Parse c1 evs) as [c2 out2].
Qed.

Lemma step_session (c : Connector) (ev : Event) :
  currentSessionId (step float_Parse c ev).1
  = List.last (session_messages [ev]) (currentSessionId c).
Proof.
  destruct ev as [|state|d|now|reply|shown reply]; simpl; try done.
  - unfold ToggleRecognition, UpdateStatus.
    by destruct (statusText _).
  - unfold SetRecognitionState, UpdateStatus.
    by destruct (statusText _).
  - destruct reply as [r|]; [|done]. simpl. by destruct (success r).
  - unfold SendToSignBridge_reply, OnSignRecognized.
    destruct reply as [r|]; [|done].
    destruct (success r); [|done].
    destruct (recognized_sign r); [|done].
    simpl. by destruct (recognizedSignText c).
Qed.

Lemma last_app_default {A} (l1 l2 : list A) (d : A) :
  List.last (l1 ++ l2)%list d = List.last l2 (List.last l1 d).
Proof.
  revert d. induction l2 as [|b l2 IH] using rev_ind; intros d.
  - by rewrite app_nil_r.
  - by rewrite app_assoc, !last_last.
Qed.

Lemma run_session (c : Connector) (evs : list Event) :
  currentSessionId (run float_Parse c evs).1
  = List.last (session_messages evs) (currentSessionId c).
Proof.
  revert c. induction evs as [|ev evs IH]; intros c; simpl; [done|].
  pose proof (step_session c ev) as Hstep.
  specialize (IH (step float_Parse c ev).1).
  destruct (step float_Parse c ev) as [c1 out1]. simpl in *.
  destruct (run float_Parse c1 evs) as [c2 out2]. simpl in *.
  rewrite IH, Hstep. unfold session_messages. simpl.
  rewrite app_nil_r. by rewrite last_app_default.
Qed.

(** X4: the session id a connector holds is the message of the last
    successful start-session reply, or the one it began with when there
    was none; a frame is sent with that id, be it empty: sending does not
    wait for a session. *)
Theorem frames_carry_last_session_id (c : Connector) (evs : list Event)
    (now : Z) (endpoint : string) (h : HandData) :
  GetCurrentSessionId (run float_Parse c evs).1
  = List.last (session_messages evs) (currentSessionId c)
  ∧ (WebRequest endpoint (HandDataJson h)
       ∈ Update float_Parse (run float_Parse c evs).1 now →
     session_id h = List.last (session_messages evs) (currentSessionId c)).
Proof.
  split; [apply run_session|].
  intros (_ & _ & _ & ->)%Update_request. apply run_session.
Qed.

End ConnectorRuns.

Section CoroutineBounds.
Import Signs.
Context {num : Type}.
Variable float_Parse : string → option num.

Local Abbreviation Connector := (@Connector num).
Local Abbreviation Landmark := (@Landmark num).
Local Abbreviation SignBridgeSign := (@SignBridgeSign num).
Local Abbreviation SignBridgeResponse := (@SignBridgeResponse num).

Lemma Parse_at_in_range (points : list string) (i : nat) (e : Exception) :
  (i < length points)%nat →
  Parse_at float_Parse points i = inl e → e = FormatException.
Proof.
  intros Hi. unfold Parse_at.
  destruct (lookup_lt_is_Some_2 points i Hi) as [token ->].
  destruct (float_Parse token); by intros [= <-].
Qed.

(** The loop guards its own indices: the only thing it can throw is what
    [float.Parse] throws. *)
Lemma landmark_loop_throws (points : list string) (remaining i : nat)
    (acc : list Landmark) (e : Exception) :
  landmark_loop float_Parse points i remaining acc = inl e →
  e = FormatException.
Proof.
  revert i acc. induction remaining as [|k IH]; intros i acc; [done|].
  cbn [landmark_loop]. case_bool_decide as Hguard; [|apply IH].
  destruct (Parse_at float_Parse points (i * 3)) as [e0|vx] eqn:H0;
    [intros [= <-]; eapply Parse_at_in_range; [|exact H0]; lia|].
  destruct (Parse_at float_Parse points (i * 3 + 1)) as [e1|vy] eqn:H1;
    [intros [= <-]; eapply Parse_at_in_range; [|exact H1]; lia|].
  destruct (Parse_at float_Parse points (i * 3 + 2)) as [e2|vz] eqn:H2;
    [intros [= <-]; eapply Parse_at_in_range; [|exact H2]; lia|].
  cbn. apply IH.
Qed.

Lemma Parse_at_parsed (points : list string) (values : list num) (i : nat)
    (v : num) :
  mapM float_Parse points = Some values →
  values !! i = Some v →
  Parse_at float_Parse points i = inr v.
Proof.
  intros Hall%mapM_Some_1 Hv.
  destruct (Forall2_lookup_r _ _ _ _ _ Hall Hv) as (token & Ht & Hp).
  unfold Parse_at. by rewrite Ht, Hp.
Qed.

Lemma group3_short (values : list num) :
  (length values < 3)%nat → group3 values = [].
Proof.
  destruct values as [|a [|b [|d rest]]]; simpl; try done. lia.
Qed.

(** With tokens that are all numbers the loop groups the values from
    [3 * i] on, three at a time, and leaves an incomplete last group out. *)
Lemma landmark_loop_parsed (points : list string) (values : list num)
    (remaining i : nat) (acc : list Landmark) :
  mapM float_Parse points = Some values →
  landmark_loop float_Parse points i remaining acc
  = inr (acc ++ group3 (take (3 * remaining) (drop (3 * i) values)))%list.
Proof.
  intros Hall. pose proof (length_mapM _ _ _ Hall) as Hlen.
  revert i acc. induction remaining as [|k IH]; intros i acc.
  - simpl. by rewrite app_nil_r.
  - cbn [landmark_loop]. case_bool_decide as Hguard.
    + assert (Hd : (3 ≤ length (drop (3 * i) values))%nat)
        by (rewrite length_drop; lia).
      destruct (drop (3 * i) values) as [|v0 [|v1 [|v2 rest]]] eqn:Hdrop;
        simpl in Hd; try lia.
      assert (Hrest : drop (3 * S i) values = rest).
      { replace (3 * S i) with (3 * i + 3) by lia.
        by rewrite <- drop_drop, Hdrop. }
      assert (Hv : ∀ j v, (v0 :: v1 :: v2 :: rest) !! j = Some v →
                          values !! (3 * i + j) = Some v).
      { intros j v Hj. by rewrite <- lookup_drop, Hdrop. }
      rewrite (Parse_at_parsed points values (i * 3) v0 Hall)
        by (replace (i * 3) with (3 * i + 0) by lia; by apply Hv).
      rewrite (Parse_at_parsed points values (i * 3 + 1) v1 Hall)
        by (replace (i * 3 + 1) with (3 * i + 1) by lia; by apply Hv).
      rewrite (Parse_at_parsed points values (i * 3 + 2) v2 Hall)
        by (replace (i * 3 + 2) with (3 * i + 2) by lia; by apply Hv).
      cbn [mbind throws_bind]. rewrite IH, Hrest.
      replace (3 * S k) with (S (S (S (3 * k)))) by lia.
      cbn [take group3]. by rewrite <- app_assoc.
    + rewrite IH.
      assert (Hshort : (length (drop (3 * i) values) < 3)%nat)
        by (rewrite length_drop; lia).
      rewrite (group3_short (take (3 * S k) (drop (3 * i) values)))
        by (rewrite length_take; lia).
      rewrite (group3_short (take (3 * k) (drop (3 * S i) values)))
        by (rewrite length_take, length_drop; lia).
      done.
Qed.

Lemma length_group3 (values : list num) :
  length (group3 values) = (length values / 3)%nat.
Proof.
  remember (length values) as n eqn:Hn. revert values Hn.
  induction n as [n IH] using lt_wf_ind. intros values ->.
  destruct values as [|a [|b [|d rest]]]; try done.
  cbn [group3 length]. rewrite (IH (length rest)); [|simpl; lia|done].
  replace (S (S (S (length rest)))) with (1 * 3 + length rest)%nat by lia.
  rewrite Nat.div_add_l by lia. lia.
Qed.

(** X5: [SendHandDataToSignBridge] is safe on an array of any length: its
    loop never reads past the end, so it throws nothing but what
    [float.Parse] throws; when every token is a number it sends the
    complete triples among the first 63 values, which are the smaller of 21
    and a third of the length. *)
Theorem coroutine_guards_its_indices (c : Connector) (now : Z)
    (handPoints : list string) :
  (∀ e, SendHandDataToSignBridge float_Parse c now handPoints = inl e →
        e = FormatException)
  ∧ (∀ values,
       mapM float_Parse handPoints = Some values →
       SendHandDataToSignBridge float_Parse c now handPoints
       = inr (forwards c now (take 63 values))
       ∧ length (group3 (take 63 values))
         = Nat.min 21 (length handPoints / 3)).
Proof.
  split.
  - intros e. unfold SendHandDataToSignBridge.
    destruct (landmark_loop float_Parse handPoints 0 21 []) as [e'|lms] eqn:Hl;
      [|done].
    intros [= <-]. by eapply landmark_loop_throws.
  - intros values Hall. split.
    + unfold SendHandDataToSignBridge.
      rewrite (landmark_loop_parsed handPoints values 21 0 [] Hall).
      change (3 * 21)%nat with 63. change (3 * 0)%nat with 0.
      by rewrite drop_0.
    + rewrite length_group3, length_take.
      rewrite <- (length_mapM _ _ _ Hall).
      destruct (le_lt_dec 63 (length handPoints)) as [Hge|Hlt].
      * rewrite Nat.min_l by done.
        assert (21 ≤ length handPoints / 3)%nat
          by (apply Nat.div_le_lower_bound; lia).
        change (63 / 3)%nat with 21. lia.
      * rewrite Nat.min_r by lia.
        assert (length handPoints / 3 < 21)%nat
          by (apply Nat.Div0.div_lt_upper_bound; lia).
        lia.
Qed.

Lemma signs_loop_spec (signs : list SignBridgeSign) (remaining i : nat)
    (text : string) :
  (i + remaining ≤ length signs)%nat →
  signs_loop signs i remaining text
  = inr (text +:+ String.concat "" (map sign_line (take remaining (drop i signs)))).
Proof.
  revert i text. induction remaining as [|k IH]; intros i text Hlen.
  - simpl. by rewrite append_empty_r.
  - cbn [signs_loop]. unfold sign_at.
    destruct (lookup_lt_is_Some_2 signs i) as [s Hs]; [lia|].
    rewrite Hs. cbn [mbind throws_bind]. rewrite IH by lia.
    rewrite (drop_S _ _ _ Hs). cbn [take map]. f_equal.
    rewrite append_assoc_string. f_equal.
    destruct (map sign_line (take k (drop (S i) signs))) as [|l ls] eqn:Hm.
    + simpl. by rewrite append_empty_r.
    + simpl. done.
Qed.

Lemma last_omap_cons {A B} (f : A → option B) (a : A) (l : list A) (d : B) :
  List.last (omap f (a :: l)) d
  = List.last (omap f l) (match f a with Some b => b | None => d end).
Proof.
  change (omap f (a :: l))
    with (match f a with Some b => b :: omap f l | None => omap f l end).
  destruct (f a) as [b|]; [|done].
  change (b :: omap f l) with ([b] ++ omap f l)%list.
  by rewrite last_app_default.
Qed.

(** X6: building the text of the sign list never reads past the end of
    the list; the text names the first five signs at most, in order; a
    reply to [GetAvailableSigns] leaves nothing behind but the new state,
    and after any number of replies the list of available signs is the one
    of the last successful reply that had one: lists replace one another,
    they do not add up, and a failed reply keeps the list. *)
Theorem sign_list_is_replaced (c : Connector)
    (replies : list (option SignBridgeResponse)) :
  (∀ l : list SignBridgeSign,
      signs_text l
      = inr ("Available Signs:" +:+ newline
             +:+ String.concat "" (map sign_line (take 5 l))))
  ∧ (∀ reply, (GetSignsCoroutine reply c).2 = [])
  ∧ GetAvailableSignsList (sign_replies c replies)
    = List.last (omap delivered replies) (availableSigns c).
Proof.
  assert (Htext : ∀ l : list SignBridgeSign,
    signs_text l
    = inr ("Available Signs:" +:+ newline
           +:+ String.concat "" (map sign_line (take 5 l)))).
  { intros l. unfold signs_text. rewrite signs_loop_spec by lia.
    rewrite drop_0. rewrite append_assoc_string. do 3 f_equal.
    destruct (le_lt_dec 5 (length l)).
    - by rewrite Nat.min_l.
    - rewrite Nat.min_r by lia. by rewrite !take_ge by lia. }
  split; [exact Htext|]. split.
  - intros reply. unfold GetSignsCoroutine.
    destruct reply as [r|]; [|done].
    destruct (success r); [|done].
    destruct (signs r) as [l|]; [|done].
    by rewrite Htext.
  - revert c. induction replies as [|reply replies IH]; intros c; [done|].
    cbn [sign_replies]. rewrite IH, last_omap_cons. f_equal.
    unfold GetSignsCoroutine, delivered.
    destruct reply as [r|]; [|done].
    destruct (success r); [|done].
    destruct (signs r) as [l|]; [|done].
    rewrite Htext. simpl. by destruct (recognizedSignText c).
Qed.

End CoroutineBounds.

Section RepliesAndTests.
Import Signs.
Context {num : Type}.
Variable float_Parse : string → option num.

Local Abbreviation Connector := (@Connector num).
Local Abbreviation Event := (@Event num).
Local Abbreviation Effect := (@Effect num).

Lemma avatar_requests_app (out1 out2 : list Effect) :
  avatar_requests (out1 ++ out2)%list
  = avatar_requests out1 + avatar_requests out2.
Proof. unfold avatar_requests. by rewrite filter_app, length_app. Qed.

Lemma Update_no_avatar (c : Connector) (now : Z) :
  avatar_requests (Update float_Parse c now) = 0.
Proof.
  destruct (Update_cases float_Parse c now) as [-> | ->]; [done|].
  by destruct (process_cases float_Parse c now)
    as [-> | [[e ->] | [-> | (points & values & _ & _ & ->)]]].
Qed.

Lemma step_avatar (c : Connector) (ev : Event) :
  avatar_requests (step float_Parse c ev).2
  = if recognised_reply ev then 1 else 0.
Proof.
  destruct ev as [|state|d|now|reply|shown reply]; simpl; try done.
  - apply Update_no_avatar.
  - unfold SendToSignBridge_reply, OnSignRecognized.
    destruct reply as [r|]; [|done].
    destruct (success r); [|done].
    destruct (recognized_sign r) as [sign|]; done.
Qed.

(** X7: a connector sends one avatar request for every successful reply
    that carries a recognized sign, and no other: whether recognition is on
    plays no part, engine frames send none, and a reply to an avatar request
    that carries a sign leads to a further avatar request. *)
Theorem one_avatar_request_per_recognized_reply (c : Connector)
    (evs : list Event) :
  avatar_requests (run float_Parse c evs).2
  = length (filter (λ ev, recognised_reply ev = true) evs).
Proof.
  revert c. induction evs as [|ev evs IH]; intros c; [done|].
  cbn [run]. pose proof (step_avatar c ev) as Hstep.
  destruct (step float_Parse c ev) as [c1 out1]. simpl in Hstep.
  specialize (IH c1). destruct (run float_Parse c1 evs) as [c2 out2].
  simpl in IH. cbn [snd]. rewrite avatar_requests_app, Hstep, IH.
  rewrite filter_cons. case_decide as Hev.
  - by rewrite Hev.
  - by destruct (recognised_reply ev).
Qed.

(** As many engine frames in a row as one likes: the state stays, the
    invocations add up. *)
Lemma run_updates (c : Connector) (nows : list Z) (k : nat) :
  (∀ now, matcher_invocations (Update float_Parse c now) = k) →
  (run float_Parse c (map EUpdate nows)).1 = c
  ∧ matcher_invocations (run float_Parse c (map EUpdate nows)).2
    = k * length nows.
Proof.
  intros Hk. induction nows as [|now nows [IHc IHn]].
  { split; [done|]. simpl length. by rewrite Nat.mul_0_r. }
  cbn [map run step].
  destruct (run float_Parse c (map EUpdate nows)) as [c1 out1].
  simpl in IHc, IHn. subst c1. cbn [fst snd]. split; [done|].
  rewrite matcher_invocations_app, IHn, Hk. simpl. lia.
Qed.

(** An engine frame over the simulated frame, recognition on. *)
Lemma Update_simulated (c : Connector) (now : Z) :
  isRecognizing c = true → handTracking c = true →
  holds c simulatedData →
  is_Some (mapM float_Parse (take 63 (Split "," (inner simulatedData)))) →
  matcher_invocations (Update float_Parse c now) = 1.
Proof.
  intros Hrec Hh Hdata [values Hvalues]. unfold Update. rewrite Hh.
  pose proof Hdata as Hu. unfold holds in Hu. rewrite Hu.
  change (negb (IsNullOrEmpty (data {| data := Some simulatedData |})))
    with true. cbn iota.
  assert (Hshape : simulatedData
                   = String "[" (inner simulatedData +:+ String "]" ""))
    by (by vm_compute).
  rewrite Hshape in Hdata.
  rewrite (process_ends float_Parse c now _ _ _ Hrec Hdata).
  assert (Hcount : length (Split "," (inner simulatedData)) = 162)
    by (by vm_compute).
  rewrite bool_decide_eq_true_2 by (rewrite Hcount; lia).
  by rewrite Hvalues.
Qed.

Lemma SetRecognitionState_fields (state : bool) (c : Connector) :
  isRecognizing (SetRecognitionState state c) = state
  ∧ handTracking (SetRecognitionState state c) = handTracking c
  ∧ udpReceive (SetRecognitionState state c) = udpReceive c.
Proof.
  unfold SetRecognitionState, UpdateStatus.
  by destruct (statusText _).
Qed.

(** X8: a run of [RunTest] leaves the simulated frame in the receiver and
    recognition off, whatever it was before; while it lasts, the simulated
    frame goes to the matcher once in every engine frame that finds
    recognition on: those before the switch if recognition was on already,
    and all of those of the second during which the test keeps it on. *)
Theorem RunTest_switches_recognition_off (c : Connector)
    (before during : list Z) :
  handTracking c = true → is_Some (udpReceive c) →
  is_Some (mapM float_Parse (take 63 (Split "," (inner simulatedData)))) →
  isRecognizing (run float_Parse c (RunTest before during)).1 = false
  ∧ holds (run float_Parse c (RunTest before during)).1 simulatedData
  ∧ matcher_invocations (run float_Parse c (RunTest before during)).2
    = (if isRecognizing c then length before else 0) + length during.
Proof.
  intros Hh [u Hu] Hparse. unfold RunTest.
  set (c1 := receive (Some simulatedData) c).
  assert (Hd1 : holds c1 simulatedData)
    by (unfold holds, c1, receive; simpl; by rewrite Hu).
  assert (Hh1 : handTracking c1 = true) by done.
  assert (Hb : (run float_Parse c1 (map EUpdate before)).1 = c1
               ∧ matcher_invocations
                   (run float_Parse c1 (map EUpdate before)).2
                 = if isRecognizing c then length before else 0).
  { destruct (isRecognizing c) eqn:Hrec.
    - destruct (run_updates c1 before 1) as [Hc Hn];
        [intros now; by apply Update_simulated|].
      split; [done|]. rewrite Hn. lia.
    - destruct (run_updates c1 before 0) as [Hc Hn];
        [intros now; by rewrite Update_inactive|].
      split; [done|]. rewrite Hn. lia. }
  destruct Hb as [Hbc Hbn].
  set (c2 := SetRecognitionState true c1).
  destruct (SetRecognitionState_fields true c1) as (Hr2 & Hh2 & Hu2).
  assert (Hd2 : holds c2 simulatedData)
    by (unfold holds, c2; by rewrite Hu2).
  destruct (run_updates c2 during 1) as [Hdc Hdn].
  { intros now. apply Update_simulated; try done.
    unfold c2. by rewrite Hh2. }
  destruct (SetRecognitionState_fields false c2) as (Hr3 & Hh3 & Hu3).
  cbn [app run step]. fold c1.
  rewrite run_app.
  destruct (run float_Parse c1 (map EUpdate before)) as [c1' out1].
  simpl in Hbc, Hbn. subst c1'.
  cbn [app run step]. fold c2.
  rewrite run_app.
  destruct (run float_Parse c2 (map EUpdate during)) as [c2' out2].
  simpl in Hdc, Hdn. subst c2'.
  cbn [run step fst snd].
  split; [done|]. split; [unfold holds; by rewrite Hu3|].
  rewrite !matcher_invocations_app, Hbn, Hdn.
  change (matcher_invocations (@nil Effect)) with 0. lia.
Qed.

End RepliesAndTests.

(* ===================================================================== *)
(** * Further facts: the test manager *)
(* ===================================================================== *)

Section MonitorFacts.
Import Monitor.

(** The engine frame finds data in the receiver. *)
Local Abbreviation has_data m :=
  (match Monitor.udpReceive m with
   | Some {| data := Some payload |} => negb (IsNullOrEmpty (Some payload))
   | _ => false
   end).

Lemma length_substring_start (n : nat) (s : string) :
  (n ≤ String.length s)%nat → String.length (substring 0 n s) = n.
Proof.
  revert s. induction n as [|n IH]; intros [|a s]; simpl; try done; try lia.
  intros Hn. rewrite IH; [done | lia].
Qed.

Lemma substring_start_twice (n : nat) (s : string) :
  (n ≤ String.length s)%nat →
  substring 0 n s = substring 0 (String.length (substring 0 n s)) s.
Proof. intros Hn. by rewrite length_substring_start. Qed.

(** Thanks to [Mathf.Min] the beginning of the payload is always there to
    take. *)
Lemma Substring_beginning (payload : string) :
  Substring payload 0 (Z.min 50 (Z.of_nat (String.length payload)))
  = inr (substring 0 (Nat.min 50 (String.length payload)) payload).
Proof.
  unfold Substring. rewrite bool_decide_eq_false_2 by lia.
  do 2 f_equal. lia.
Qed.

Lemma UpdateStatus_fields_monitor (time : Q) (m : Manager) :
  isTesting (Monitor.UpdateStatus time m) = isTesting m
  ∧ lastDataTime (Monitor.UpdateStatus time m) = lastDataTime m
  ∧ dataCount (Monitor.UpdateStatus time m) = dataCount m
  ∧ dataText (Monitor.UpdateStatus time m) = dataText m
  ∧ Monitor.udpReceive (Monitor.UpdateStatus time m) = Monitor.udpReceive m
  ∧ running (Monitor.UpdateStatus time m) = running m
  ∧ (is_Some (Monitor.statusText (Monitor.UpdateStatus time m))
     ↔ is_Some (Monitor.statusText m)).
Proof.
  unfold Monitor.UpdateStatus.
  destruct (Monitor.statusText m) eqn:Hs; simpl; rewrite ?Hs;
    repeat split; try done; by eexists.
Qed.

Lemma monitor_data_ok (time : Q) (payload : string) (m : Manager) :
  ∃ m1, monitor_data time payload m = inr m1
        ∧ isTesting m1 = isTesting m
        ∧ lastDataTime m1 = time
        ∧ dataCount m1 = Int32 (dataCount m + 1)
        ∧ Monitor.udpReceive m1 = Monitor.udpReceive m
        ∧ running m1 = running m
        ∧ Monitor.statusText m1 = Monitor.statusText m
        ∧ dataText m1
          = match dataText m with
            | Some _ =>
                Some (Some {| shown_count := Int32 (dataCount m + 1);
                              shown_age := (time - time)%Q;
                              shown_data :=
                                substring 0
                                  (Nat.min 50 (String.length payload))
                                  payload |})
            | None => None
            end.
Proof.
  unfold monitor_data. destruct (dataText m) as [old|].
  - rewrite Substring_beginning. cbn. eexists. by repeat split.
  - cbn. eexists. by repeat split.
Qed.

(** What an engine frame does to the fields; it never throws. *)
Lemma Update_ok (time : Q) (m : Manager) :
  ∃ m1, Monitor.Update time m = inr m1
        ∧ isTesting m1 = isTesting m
        ∧ running m1 = running m
        ∧ Monitor.udpReceive m1 = Monitor.udpReceive m
        ∧ (is_Some (Monitor.statusText m1) ↔ is_Some (Monitor.statusText m))
        ∧ dataCount m1
          = (if has_data m then Int32 (dataCount m + 1) else dataCount m)
        ∧ lastDataTime m1 = (if has_data m then time else lastDataTime m).
Proof.
  unfold Monitor.Update.
  destruct (Monitor.udpReceive m) as [[[payload|]]|] eqn:Hu.
  - destruct (negb (IsNullOrEmpty (Some payload))) eqn:Hd.
    + destruct (monitor_data_ok time payload m)
        as (m1 & -> & Ht & Hl & Hc & Hu1 & Hr & Hs & _).
      cbn [mbind throws_bind mret throws_ret]. eexists. split; [done|].
      destruct (UpdateStatus_fields_monitor time m1)
        as (-> & -> & -> & _ & -> & -> & Hs1).
      rewrite Hs1. by rewrite Ht, Hl, Hc, Hu1, Hr, Hs, Hu.
    + cbn [mbind throws_bind mret throws_ret]. eexists. split; [done|].
      destruct (UpdateStatus_fields_monitor time m)
        as (-> & -> & -> & _ & -> & -> & Hs1).
      by rewrite Hs1, Hu.
  - cbn [mbind throws_bind mret throws_ret]. eexists. split; [done|].
    destruct (UpdateStatus_fields_monitor time m)
      as (-> & -> & -> & _ & -> & -> & Hs1).
    by rewrite Hs1, Hu.
  - cbn [mbind throws_bind mret throws_ret]. eexists. split; [done|].
    destruct (UpdateStatus_fields_monitor time m)
      as (-> & -> & -> & _ & -> & -> & Hs1).
    by rewrite Hs1, Hu.
Qed.

Lemma Int32_in_range (n : Z) : (- 2 ^ 31 ≤ Int32 n < 2 ^ 31)%Z.
Proof.
  unfold Int32.
  pose proof (Z.mod_pos_bound (n + 2 ^ 31) (2 ^ 32)) as H. lia.
Qed.

Lemma Int32_small (n : Z) : (- 2 ^ 31 ≤ n < 2 ^ 31)%Z → Int32 n = n.
Proof. intros Hn. unfold Int32. rewrite Z.mod_small; lia. Qed.

Lemma Int32_add (a b : Z) : Int32 (Int32 a + b) = Int32 (a + b).
Proof.
  unfold Int32.
  replace ((a + 2 ^ 31) mod 2 ^ 32 - 2 ^ 31 + b + 2 ^ 31)%Z
    with ((a + 2 ^ 31) mod 2 ^ 32 + b)%Z by lia.
  rewrite Zplus_mod_idemp_l. do 2 f_equal. lia.
Qed.

(** X9: the monitor never throws, and its data count is the number of
    engine frames that found data in the receiver, datagrams or no new
    datagrams: it counts frames, in 32-bit arithmetic, and is exact as
    long as the sum stays below 2^31. *)
Theorem data_count_counts_engine_frames (m : Manager) (hs : list Happening) :
  (- 2 ^ 31 ≤ dataCount m < 2 ^ 31)%Z →
  ∃ m', happenings m hs = inr m'
        ∧ dataCount m' = Int32 (dataCount m + frames_with_data m hs)
        ∧ ((dataCount m + frames_with_data m hs < 2 ^ 31)%Z →
           dataCount m' = (dataCount m + frames_with_data m hs)%Z).
Proof.
  assert (Hnn : ∀ hs m, (0 ≤ frames_with_data m hs)%Z).
  { clear. induction hs as [|h hs IH]; intros m; [done|].
    cbn [frames_with_data].
    set (rest := match happen m h with
                 | inr m1 => frames_with_data m1 hs
                 | inl _ => 0%Z
                 end).
    assert (0 ≤ rest)%Z
      by (unfold rest; destruct (happen m h); [done | apply IH]).
    clearbody rest.
    destruct h; try lia.
    destruct (Monitor.udpReceive m) as [[[payload|]]|]; try lia.
    destruct (negb (IsNullOrEmpty (Some payload))); lia. }
  intros Hrange.
  assert (Hmain : ∃ m', happenings m hs = inr m'
            ∧ dataCount m' = Int32 (dataCount m + frames_with_data m hs)).
  { revert m Hrange. induction hs as [|h hs IH]; intros m Hrange.
    - exists m. split; [done|]. simpl.
      rewrite Z.add_0_r. by rewrite Int32_small.
    - assert (Hstep : ∃ m1 δ, happen m h = inr m1
                ∧ dataCount m1 = Int32 (dataCount m + δ)
                ∧ δ = match h, Monitor.udpReceive m with
                      | HUpdate _, Some {| data := Some payload |} =>
                          if negb (IsNullOrEmpty (Some payload)) then 1 else 0
                      | _, _ => 0
                      end%Z).
      { destruct h as [time|d| | |enable|]; cbn [happen].
        - destruct (Update_ok time m) as (m1 & -> & _ & _ & _ & _ & Hc & _).
          exists m1. eexists. split; [done|]. split; [|done].
          rewrite Hc.
          destruct (Monitor.udpReceive m) as [[[payload|]]|];
            try (rewrite Z.add_0_r, Int32_small; done).
          destruct payload; simpl;
            [rewrite Z.add_0_r, Int32_small; done | done].
        - eexists _, 0%Z. split; [reflexivity|]. split; [|reflexivity].
          rewrite Z.add_0_r, Int32_small by done. reflexivity.
        - eexists _, 0%Z. split; [reflexivity|]. split; [|reflexivity].
          rewrite Z.add_0_r, Int32_small by done.
          unfold StartTest. by destruct (isTesting m).
        - eexists _, 0%Z. split; [reflexivity|]. split; [|reflexivity].
          rewrite Z.add_0_r, Int32_small by done.
          unfold AutoTest_round. by destruct (isTesting m).
        - eexists _, 0%Z. split; [reflexivity|]. split; [|reflexivity].
          rewrite Z.add_0_r, Int32_small by done. reflexivity.
        - eexists _, 0%Z. split; [reflexivity|]. split; [|reflexivity].
          rewrite Z.add_0_r, Int32_small by done.
          by destruct (running m). }
      destruct Hstep as (m1 & δ & Hh & Hc & Hδ).
      destruct (IH m1) as (m' & Hrun & Hc').
      { rewrite Hc. apply Int32_in_range. }
      exists m'. cbn [happenings frames_with_data]. rewrite Hh.
      cbn [mbind throws_bind]. split; [done|].
      rewrite Hc', Hc, Int32_add, <- Hδ. f_equal. lia. }
  destruct Hmain as (m' & Hrun & Hc). exists m'. repeat split; try done.
  intros Hsmall. rewrite Hc. apply Int32_small.
  specialize (Hnn hs m). lia.
Qed.

(** X10: whenever data is found, the data line is rewritten with the new
    count, with an age of zero (the age is computed right after the time of
    the last data has been set to now), and with the first 50 characters of
    the payload, or all of it if it is shorter: taking them never reads
    past its end. *)
Theorem data_line_shows_no_age (time : Q) (payload : string) (m : Manager) :
  is_Some (dataText m) →
  ∃ m' shown,
    monitor_data time payload m = inr m'
    ∧ dataText m' = Some (Some shown)
    ∧ shown_count shown = dataCount m'
    ∧ (shown_age shown == 0)%Q
    ∧ String.length (shown_data shown) = Nat.min 50 (String.length payload)
    ∧ String.prefix (shown_data shown) payload = true.
Proof.
  intros [old Hold].
  destruct (monitor_data_ok time payload m)
    as (m1 & Hm & _ & _ & Hc & _ & _ & _ & Ht).
  rewrite Hold in Ht. exists m1. eexists. split; [done|].
  split; [exact Ht|]. cbn [shown_count shown_age shown_data].
  split; [done|].
  split; [unfold Qminus; apply Qplus_opp_r|].
  assert (Hlen : String.length
                   (substring 0 (Nat.min 50 (String.length payload)) payload)
                 = Nat.min 50 (String.length payload))
    by (apply length_substring_start; lia).
  split; [done|]. apply prefix_correct. by rewrite Hlen.
Qed.

(** X11: as long as no data has come in and no test has been started, the
    time of the last data is still the zero it began with, so the status
    line says that data is being received exactly during the first five
    seconds, although none has been. *)
Theorem status_claims_data_at_first (hs : list Happening) (time : Q) :
  Forall (λ h, match h with
               | HReceive _ | HStartTest | HAutoTest => False
               | _ => True
               end) hs →
  ∃ m' m'',
    happenings Monitor.started hs = inr m'
    ∧ dataCount m' = 0%Z
    ∧ Monitor.Update time m' = inr m''
    ∧ (Monitor.statusText m'' = Some "Receiving Data ✅" ↔ (time < 5)%Q)
    ∧ (Monitor.statusText m'' = Some "Waiting for Data ⏳" ↔ (5 <= time)%Q).
Proof.
  intros Hquiet.
  assert (Hinv : ∃ m', happenings Monitor.started hs = inr m'
     ∧ dataCount m' = 0%Z ∧ lastDataTime m' = 0%Q ∧ isTesting m' = false
     ∧ running m' = 0
     ∧ Monitor.udpReceive m' = Some {| data := None |}
     ∧ is_Some (Monitor.statusText m')).
  { assert (Hgen : ∀ m, dataCount m = 0%Z → lastDataTime m = 0%Q →
        isTesting m = false → running m = 0 →
        Monitor.udpReceive m = Some {| data := None |} →
        is_Some (Monitor.statusText m) →
        ∃ m', happenings m hs = inr m'
          ∧ dataCount m' = 0%Z ∧ lastDataTime m' = 0%Q ∧ isTesting m' = false
          ∧ running m' = 0
          ∧ Monitor.udpReceive m' = Some {| data := None |}
          ∧ is_Some (Monitor.statusText m')).
    { induction hs as [|h hs IH]; intros m Hc Hl Ht Hr Hu Hs.
      - by exists m.
      - apply Forall_cons in Hquiet as [Hh Hquiet].
        specialize (IH Hquiet). cbn [happenings].
        destruct h as [t|d| | |enable|]; try done; cbn [happen].
        + destruct (Update_ok t m)
            as (m1 & -> & Ht1 & Hr1 & Hu1 & Hs1 & Hc1 & Hl1).
          rewrite Hu in Hc1, Hl1. cbn [mbind throws_bind].
          apply IH; try congruence. by apply Hs1.
        + cbn [happen mbind throws_bind mret throws_ret]. by apply IH.
        + cbn [happen mbind throws_bind mret throws_ret]. rewrite Hr.
          by apply IH. }
    apply Hgen; done || by eexists. }
  destruct Hinv as (m' & Hrun & Hc & Hl & Ht & Hr & Hu & [status Hs]).
  exists m'. unfold Monitor.Update. rewrite Hu.
  cbn [mbind throws_bind mret throws_ret]. eexists.
  split; [done|]. split; [done|]. split; [done|].
  unfold Monitor.UpdateStatus. rewrite Hs, Ht, Hl. simpl.
  assert (Heq : (time - 0 == time)%Q) by (unfold Qminus; apply Qplus_0_r).
  destruct (Qlt_le_dec (time - 0) 5) as [Hlt|Hge]; rewrite Heq in *.
  - split; split; try done. intros Hge. by apply Qle_not_lt in Hge.
  - split; split; try done. intros Hlt. by apply Qle_not_lt in Hge.
Qed.

(** X12: tests do not overlap: from a state in which no test runs, whatever
    the button, the rounds of [AutoTest] and the engine do, at most one
    [RunTest] has begun and not ended, and [isTesting] is set exactly while
    one has. *)
Theorem one_test_at_a_time (m : Manager) (hs : list Happening) :
  running m = (if isTesting m then 1 else 0) →
  ∃ m', happenings m hs = inr m'
        ∧ running m' = (if isTesting m' then 1 else 0)
        ∧ (running m' ≤ 1)%nat.
Proof.
  revert m. induction hs as [|h hs IH]; intros m Hinv.
  - exists m. repeat split; try done. destruct (isTesting m); lia.
  - cbn [happenings].
    assert (Hstep : ∃ m1, happen m h = inr m1
              ∧ running m1 = (if isTesting m1 then 1 else 0)).
    { destruct h as [t|d| | |enable|]; cbn [happen].
      - destruct (Update_ok t m) as (m1 & -> & Ht1 & Hr1 & _).
        exists m1. split; [done|]. by rewrite Hr1, Ht1.
      - eexists. split; [reflexivity|]. exact Hinv.
      - eexists. split; [reflexivity|]. unfold StartTest.
        destruct (isTesting m) eqn:Ht; simpl; [by rewrite Ht|].
        by rewrite Hinv.
      - eexists. split; [reflexivity|]. unfold AutoTest_round.
        destruct (isTesting m) eqn:Ht; simpl; [by rewrite Ht|].
        by rewrite Hinv.
      - eexists. split; [reflexivity|]. exact Hinv.
      - eexists. split; [reflexivity|].
        destruct (isTesting m) eqn:Ht; rewrite Hinv; simpl;
          by rewrite ?Hinv, ?Ht. }
    destruct Hstep as (m1 & -> & Hinv1). cbn [mbind throws_bind].
    by apply IH.
Qed.

End MonitorFacts.

(** ** The recognizers: shares of the draws, the history of the screen *)

Section Shares.
Import JavaScript Mobile Taps.





Lemma fair_capture (random : Q) :
  (0 <= random)%Q ∧ (random < 1)%Q →
  ∃ sg, element signsData (random_index random (length signsData)) = Some sg
        ∧ sg ∈ signsData.
Proof.
  intros [H0 H1]. apply element_in_range.
  apply random_index_range; try done. simpl. lia.
Qed.

Lemma tap_length (s : Screen) (t : Tap) :
  fair t →
  length (conversationHistory (tap s t))
  = recognized_since_clear [t] (length (conversationHistory s)).
Proof.
  destruct t as [camera photo_taken random now clock|confirmed];
    cbn [tap recognized_since_clear fair].
  - intros Hfair. unfold capturePhoto.
    destruct camera, photo_taken; try done.
    destruct (fair_capture random Hfair) as (sg & -> & _).
    cbn [fst conversationHistory andb]. rewrite length_app. simpl. lia.
  - intros _. by destruct confirmed.
Qed.

Lemma tap_prefix (s : Screen) (t : Tap) :
  t ≠ Clear true →
  conversationHistory s `prefix_of` conversationHistory (tap s t).
Proof.
  destruct t as [camera photo_taken random now clock|confirmed];
    cbn [tap]; intros Hno.
  - unfold capturePhoto. destruct camera, photo_taken; try done.
    destruct (element signsData _); cbn [fst conversationHistory];
      [by apply prefix_app_r | done].
  - by destruct confirmed.
Qed.

(** X14: the history grows by one entry for each capture that reaches the
    recognizer and by nothing else, and is emptied by a confirmed clearing
    only: its length is the number of such captures since the last confirmed
    clearing, and while none is confirmed the earlier entries stay where
    they are. *)
Theorem history_grows_by_one_per_recognition (s : Screen) (ts : list Tap) :
  Forall fair ts →
  length (conversationHistory (taps s ts))
  = recognized_since_clear ts (length (conversationHistory s))
  ∧ (Forall (λ t, t ≠ Clear true) ts →
     conversationHistory s `prefix_of` conversationHistory (taps s ts)).
Proof.
  revert s. induction ts as [|t ts IH]; intros s Hfair.
  - by split.
  - apply Forall_cons in Hfair as [Ht Hfair].
    destruct (IH (tap s t) Hfair) as [IHlen IHpre].
    change (taps s (t :: ts)) with (taps (tap s t) ts). split.
    + rewrite IHlen, (tap_length s t Ht).
      by destruct t as [camera photo_taken ? ? ?|confirmed].
    + intros [Hno Hnos]%Forall_cons.
      etransitivity; [by apply tap_prefix | by apply IHpre].
Qed.

Lemma tap_keeps (s : Screen) (t : Tap) :
  panel_consistent s → Forall from_signsData (conversationHistory s) →
  panel_consistent (tap s t)
  ∧ Forall from_signsData (conversationHistory (tap s t)).
Proof.
  intros Hp Hh.
  destruct t as [camera photo_taken random now clock|confirmed]; cbn [tap].
  - unfold capturePhoto. destruct camera, photo_taken; try done.
    destruct (element signsData _) as [sg|] eqn:Hel;
      cbn [fst conversationHistory].
    + assert (Hin : sg ∈ signsData).
      { apply element_Some in Hel as [_ Hel].
        by eapply list_elem_of_lookup_2. }
      split.
      * by intros sg' [= <-].
      * apply Forall_app. split; [done|].
        constructor; [|done]. by exists sg.
    + split; [|done]. by intros sg [=].
  - destruct confirmed; [|done]. split; [exact Hp | constructor].
Qed.

(** X15: whatever is tapped, with whatever draws, the result panel and the
    history show signs of the list only: the confidence displayed is the one
    of the sign displayed, and every entry of the history carries the name,
    the description and the confidence of one sign of the list. *)
Theorem screen_shows_signs_of_the_list (s : Screen) (ts : list Tap) :
  panel_consistent s → Forall from_signsData (conversationHistory s) →
  panel_consistent (taps s ts)
  ∧ Forall from_signsData (conversationHistory (taps s ts)).
Proof.
  revert s. induction ts as [|t ts IH]; intros s Hp Hh; [done|].
  change (taps s (t :: ts)) with (taps (tap s t) ts).
  destruct (tap_keeps s t Hp Hh) as [Hp' Hh']. by apply IH.
Qed.

End Shares.

(** ** The landmark endpoint *)

Section Landmarks.
Import Backend.

Lemma dict_get_missing (key : string) (fields : list (string * Json.value))
    (default : Json.value) :
  key ∉ fields.*1 → dict_get key fields default = default.
Proof.
  revert default. induction fields as [|[k v] fields IH]; intros default Hno;
    [done|].
  cbn [dict_get]. apply not_elem_of_cons in Hno as [Hk Hno].
  destruct (String.eqb_spec k key) as [->|_]; [done|]. by apply IH.
Qed.

Lemma dict_get_last (key : string) (before after : list (string * Json.value))
    (v default : Json.value) :
  key ∉ after.*1 →
  dict_get key (before ++ (key, v) :: after) default = v.
Proof.
  intros Hno. revert default.
  induction before as [|[k w] before IH]; intros default.
  - cbn [app dict_get]. rewrite String.eqb_refl. by apply dict_get_missing.
  - cbn [app dict_get]. by destruct (String.eqb k key).
Qed.

(** X16: the landmark endpoint answers every JSON object with the same
    recognition, whatever landmarks it holds or lacks, together with the
    session id of the body: the last field of that name, or null when the
    body has none.  It answers with the server error exactly when the body
    is no object. *)
Theorem landmarks_reply_ignores_landmarks :
  (∀ fields, "session_id" ∉ fields.*1 →
      process_hand_landmarks (Json.Object fields)
      = Recognized {| sign := "Hello"; category := "greeting";
                      confidence := (92 # 100)%Q |} Json.Null)
  ∧ (∀ before v after, "session_id" ∉ after.*1 →
       process_hand_landmarks
         (Json.Object (before ++ ("session_id", v) :: after))
       = Recognized {| sign := "Hello"; category := "greeting";
                       confidence := (92 # 100)%Q |} v)
  ∧ (∀ data, process_hand_landmarks data = ServerError
             ↔ ∀ fields, data ≠ Json.Object fields).
Proof.
  split; [|split].
  - intros fields Hno. unfold process_hand_landmarks.
    by rewrite (dict_get_missing "session_id").
  - intros before v after Hno. unfold process_hand_landmarks.
    by rewrite (dict_get_last "session_id").
  - intros data. destruct data as [| | | | | |fields]; cbn; split;
      try reflexivity; try (intros _ fields'; discriminate).
    + discriminate.
    + intros Hno. by destruct (Hno fields).
Qed.

End Landmarks.

(** ** The facts above at concrete inputs *)

Section ConnectorInstances.
Import Signs.

(** One engine frame over a stored frame of 63 sevens, at clock reading 5. *)
Lemma sent_frames_are_complete_witness :
  let c : @Connector Z := listening (wrapped (repeat "7" 63)) in
  let h := {| landmarks := repeat {| x := 7; y := 7; z := 7 |}%Z 21;
              Unity.session_id := ""; Unity.timestamp := 5%Z |} in
  WebRequest "/api/recognize/advanced" (HandDataJson h)
    ∈ (run parse_int c [EUpdate 5%Z]).2
  ∧ length (landmarks h) = 21
  ∧ Unity.timestamp h ∈ update_times [@EUpdate Z 5%Z].
Proof.
  intros c h.
  assert (Hin : WebRequest "/api/recognize/advanced" (HandDataJson h)
                  ∈ (run parse_int c [EUpdate 5%Z]).2)
    by (vm_compute; left).
  split; [exact Hin|].
  exact (proj2 (sent_frames_are_complete parse_int c [EUpdate 5%Z] _ h Hin)).
Defined.

(** A receiver without data, and one that holds the single character x. *)
Lemma Update_without_payload_witness :
  @Unity.udpReceive Z Unity.started = Some {| data := None |}
  ∧ Update parse_int Unity.started 0 = []
  ∧ @isRecognizing Z (listening "x") = true
  ∧ @handTracking Z (listening "x") = true
  ∧ @holds Z (listening "x") "x"
  ∧ Update parse_int (listening "x") 0
    = [LogError ArgumentOutOfRangeException].
Proof.
  split; [reflexivity|]. split.
  { apply (proj1 (Update_without_payload parse_int Unity.started 0)).
    right; right; left. reflexivity. }
  split; [reflexivity|]. split; [reflexivity|]. split; [reflexivity|].
  apply (proj2 (Update_without_payload parse_int (listening "x") 0)
           "x"%char); reflexivity.
Defined.

(** The connector after [Start()], toggled once, then an engine frame. *)
Lemma status_line_follows_recognition_witness :
  status_consistent (@Unity.started Z)
  ∧ status_consistent
      (run parse_int Unity.started [EToggleRecognition; EUpdate 0%Z]).1.
Proof.
  assert (H : status_consistent (@Unity.started Z))
    by (intros shown [= <-]; reflexivity).
  split; [exact H|].
  exact (proj2 (proj2 (status_line_follows_recognition parse_int
                         Unity.started
                         [EToggleRecognition; EUpdate 0%Z])) H).
Defined.

(** A session reply with the message s1, then an engine frame. *)
Lemma frames_carry_last_session_id_witness :
  let c : @Connector Z := listening (wrapped (repeat "7" 63)) in
  let reply := {| Unity.success := true; Unity.message := "s1";
                  signs := None; recognized_sign := None |} in
  let h := {| landmarks := repeat {| x := 7; y := 7; z := 7 |}%Z 21;
              Unity.session_id := "s1"; Unity.timestamp := 9%Z |} in
  WebRequest "/api/recognize/advanced" (HandDataJson h)
    ∈ Update parse_int (run parse_int c [ESessionReply (Some reply)]).1 9
  ∧ Unity.session_id h
    = List.last (session_messages [ESessionReply (Some reply)])
        (currentSessionId c).
Proof.
  intros c reply h.
  assert (Hin : WebRequest "/api/recognize/advanced" (HandDataJson h)
                  ∈ Update parse_int
                      (run parse_int c [ESessionReply (Some reply)]).1 9)
    by (vm_compute; left).
  split; [exact Hin|].
  exact (proj2 (frames_carry_last_session_id parse_int c
                  [ESessionReply (Some reply)] 9 _ h) Hin).
Defined.

(** Seven tokens: two complete triples. *)
Lemma coroutine_guards_its_indices_witness :
  mapM parse_int (repeat "7" 7) = Some (repeat 7%Z 7)
  ∧ SendHandDataToSignBridge parse_int Unity.started 0 (repeat "7" 7)
    = inr (forwards Unity.started 0 (take 63 (repeat 7%Z 7)))
  ∧ length (group3 (take 63 (repeat 7%Z 7))) = Nat.min 21 (7 / 3).
Proof.
  split; [reflexivity|].
  apply (proj2 (coroutine_guards_its_indices parse_int Unity.started 0
                  (repeat "7" 7))).
  reflexivity.
Defined.

(** The test run from the connector after [Start()]: two engine frames
    before the switch, three during the second it is on. *)
Lemma RunTest_switches_recognition_off_witness :
  @handTracking Z Unity.started = true
  ∧ is_Some (@Unity.udpReceive Z Unity.started)
  ∧ is_Some (mapM parse_int (take 63 (Split "," (inner simulatedData))))
  ∧ isRecognizing
      (run parse_int Unity.started (RunTest [0; 1] [2; 3; 4])%Z).1 = false
  ∧ holds (run parse_int Unity.started (RunTest [0; 1] [2; 3; 4])%Z).1
      simulatedData
  ∧ matcher_invocations
      (run parse_int Unity.started (RunTest [0; 1] [2; 3; 4])%Z).2
    = (if @isRecognizing Z Unity.started then length [0; 1]%Z else 0)
      + length [2; 3; 4]%Z.
Proof.
  assert (Hnum : is_Some (mapM parse_int
                            (take 63 (Split "," (inner simulatedData)))))
    by (apply (bool_decide_unpack _); vm_compute; exact I).
  split; [reflexivity|]. split; [by eexists|]. split; [exact Hnum|].
  apply (RunTest_switches_recognition_off parse_int Unity.started
           [0; 1]%Z [2; 3; 4]%Z); [reflexivity | by eexists | exact Hnum].
Defined.

End ConnectorInstances.

Section MonitorInstances.
Import Monitor.

(** A datagram, then two engine frames: the count is two. *)
Lemma data_count_counts_engine_frames_witness :
  (- 2 ^ 31 ≤ dataCount Monitor.started < 2 ^ 31)%Z
  ∧ frames_with_data Monitor.started
      [HReceive (Some "abc"); HUpdate 1; HUpdate 2] = 2%Z
  ∧ ∃ m', happenings Monitor.started
            [HReceive (Some "abc"); HUpdate 1; HUpdate 2] = inr m'
          ∧ dataCount m'
            = Int32 (dataCount Monitor.started
                     + frames_with_data Monitor.started
                         [HReceive (Some "abc"); HUpdate 1; HUpdate 2])
          ∧ ((dataCount Monitor.started
              + frames_with_data Monitor.started
                  [HReceive (Some "abc"); HUpdate 1; HUpdate 2] < 2 ^ 31)%Z →
             dataCount m'
             = (dataCount Monitor.started
                + frames_with_data Monitor.started
                    [HReceive (Some "abc"); HUpdate 1; HUpdate 2])%Z).
Proof.
  assert (H : (- 2 ^ 31 ≤ dataCount Monitor.started < 2 ^ 31)%Z)
    by (split; by vm_compute).
  split; [exact H|]. split; [reflexivity|].
  exact (data_count_counts_engine_frames Monitor.started
           [HReceive (Some "abc"); HUpdate 1; HUpdate 2] H).
Defined.

(** A payload of three characters at time 3. *)
Lemma data_line_shows_no_age_witness :
  is_Some (dataText Monitor.started)
  ∧ ∃ m' shown,
      monitor_data 3 "abc" Monitor.started = inr m'
      ∧ dataText m' = Some (Some shown)
      ∧ shown_count shown = dataCount m'
      ∧ (shown_age shown == 0)%Q
      ∧ String.length (shown_data shown) = Nat.min 50 (String.length "abc")
      ∧ String.prefix (shown_data shown) "abc" = true.
Proof.
  assert (H : is_Some (dataText Monitor.started)) by (by eexists).
  split; [exact H|].
  exact (data_line_shows_no_age 3 "abc" Monitor.started H).
Defined.

(** Two seconds after the start, nothing received. *)
Lemma status_claims_data_at_first_witness :
  Forall (λ h, match h with
               | HReceive _ | HStartTest | HAutoTest => False
               | _ => True
               end) [HUpdate 1; HEnableAutoTest false]
  ∧ ∃ m' m'',
      happenings Monitor.started [HUpdate 1; HEnableAutoTest false] = inr m'
      ∧ dataCount m' = 0%Z
      ∧ Monitor.Update 2 m' = inr m''
      ∧ (Monitor.statusText m'' = Some "Receiving Data ✅" ↔ (2 < 5)%Q)
      ∧ (Monitor.statusText m'' = Some "Waiting for Data ⏳" ↔ (5 <= 2)%Q).
Proof.
  assert (H : Forall (λ h, match h with
                           | HReceive _ | HStartTest | HAutoTest => False
                           | _ => True
                           end) [HUpdate 1; HEnableAutoTest false])
    by (repeat constructor).
  split; [exact H|].
  exact (status_claims_data_at_first [HUpdate 1; HEnableAutoTest false] 2 H).
Defined.

(** The button and the automatic test compete; one test runs. *)
Lemma one_test_at_a_time_witness :
  running Monitor.started = (if isTesting Monitor.started then 1 else 0)
  ∧ ∃ m', happenings Monitor.started
            [HStartTest; HAutoTest; HStartTest; HRunTestEnds; HAutoTest]
          = inr m'
          ∧ running m' = (if isTesting m' then 1 else 0)
          ∧ (running m' ≤ 1)%nat.
Proof.
  split; [reflexivity|].
  exact (one_test_at_a_time Monitor.started
           [HStartTest; HAutoTest; HStartTest; HRunTestEnds; HAutoTest]
           eq_refl).
Defined.

End MonitorInstances.

Section RecognizerInstances.
Import JavaScript Mobile Taps.


(** Two recognized captures, a cancelled clearing and a failed photo. *)
Lemma history_grows_by_one_per_recognition_witness :
  let ts := [Capture true true (1 # 2) 10 "10:00:00"; Clear false;
             Capture true false 0 11 "10:00:01";
             Capture true true (1 # 10) 12 "10:00:02"] in
  Forall fair ts
  ∧ recognized_since_clear ts (length (conversationHistory initial)) = 2
  ∧ length (conversationHistory (taps initial ts))
    = recognized_since_clear ts (length (conversationHistory initial))
  ∧ (Forall (λ t, t ≠ Clear true) ts →
     conversationHistory initial
       `prefix_of` conversationHistory (taps initial ts)).
Proof.
  intros ts.
  assert (H : Forall fair ts).
  { repeat constructor; by vm_compute. }
  split; [exact H|]. split; [reflexivity|].
  exact (history_grows_by_one_per_recognition initial ts H).
Defined.

(** The same taps, with a confirmed clearing in between. *)
Lemma screen_shows_signs_of_the_list_witness :
  let ts := [Capture true true (1 # 2) 10 "10:00:00"; Clear true;
             Capture true true (1 # 10) 12 "10:00:02"] in
  panel_consistent initial
  ∧ Forall from_signsData (conversationHistory initial)
  ∧ panel_consistent (taps initial ts)
  ∧ Forall from_signsData (conversationHistory (taps initial ts)).
Proof.
  intros ts.
  assert (Hp : panel_consistent initial) by (intros sg H; discriminate H).
  assert (Hh : Forall from_signsData (conversationHistory initial))
    by constructor.
  split; [exact Hp|]. split; [exact Hh|].
  exact (screen_shows_signs_of_the_list initial ts Hp Hh).
Defined.

End RecognizerInstances.

Section LandmarkInstances.
Import Backend.

(** A body with two session ids and no landmarks. *)
Lemma landmarks_reply_ignores_landmarks_witness :
  let after : list (string * Json.value) := [] in
  ("session_id" ∉ after.*1)
  ∧ process_hand_landmarks
      (Json.Object ([("session_id", Json.Str "a")]
                    ++ ("session_id", Json.Str "b") :: after))
    = Recognized {| sign := "Hello"; category := "greeting";
                    confidence := (92 # 100)%Q |} (Json.Str "b").
Proof.
  intros after.
  assert (H : "session_id" ∉ after.*1) by (intros Hin; inversion Hin).
  split; [exact H|].
  exact (proj1 (proj2 landmarks_reply_ignores_landmarks)
           [("session_id", Json.Str "a")] (Json.Str "b") after H).
Defined.

End LandmarkInstances.
